(** * CausalPy [causalpy/utils.py]: dummy-coding and level checks, value formatting

    A shallow embedding of the four helpers of [causalpy/utils.py]
    ([_is_variable_dummy_coded], [_series_has_2_levels], [_format_sig_figs]
    with [round_num], and [convert_to_string]) together with the parts of
    the Python runtime they rely on: scalar equality, [set], [int()] on
    floats, the ['.2f'] and ['.{p}g'] format specifications, pandas'
    [Categorical] constructor and a store of heap objects. *)

From Stdlib Require Import ZArith List Bool String Ascii Decimal DecimalString.
From Stdlib Require Import Floats.SpecFloat.
From stdpp Require Import base option list strings gmap.

Local Open Scope Z_scope.

(* ===================================================================== *)
(** ** Exceptions and results *)
(* ===================================================================== *)

(** The Python exception classes the modelled code can raise.  [BadRef] is
    not a Python exception: it marks a reference that does not point to an
    object of the type the function's annotation announces. *)
Inductive exn : Type :=
  | AttributeError
  | TypeError
  | ValueError
  | OverflowError
  | IndexError
  | BadRef.

Inductive result (A : Type) : Type :=
  | Ok (a : A)
  | Raise (e : exn).
Arguments Ok {A} a.
Arguments Raise {A} e.

(* ===================================================================== *)
(** ** Binary64 floating-point numbers *)
(* ===================================================================== *)

(** Python's [float] and numpy's [float64] are IEEE 754 binary64 numbers;
    they are represented by [spec_float] with precision 53 and maximal
    exponent 1024.  A finite number [S754_finite s m e] is
    [(-1)^s * m * 2^e]. *)
Module F64.

Definition prec : Z := 53.
Definition emax : Z := 1024.

Definition float : Type := spec_float.

Definition zero : float := S754_zero false.
Definition nan : float := S754_nan.

Definition is_zero (f : float) : bool :=
  match f with S754_zero _ => true | _ => false end.

Definition is_nan (f : float) : bool :=
  match f with S754_nan => true | _ => false end.


(** Conversion of an integer, rounding to nearest even. *)
Definition of_Z (z : Z) : float := binary_normalize prec emax z 0 false.

Definition sub (x y : float) : float := SFsub prec emax x y.
Definition div (x y : float) : float := SFdiv prec emax x y.
Definition abs (x : float) : float := SFabs x.
Definition opp (x : float) : float := SFopp x.

(** The float denoted by the decimal literal [m * 10^(-k)], for a
    mantissa below [2^53] and [k <= 22]: both operands of the division are
    then exact, and the correctly rounded quotient is the float nearest to
    the literal, which is what Python's parser produces. *)
Definition of_decimal (m : Z) (k : Z) : float :=
  div (of_Z m) (of_Z (10 ^ k)).

(** [int(f)]: truncation toward zero; fails on NaN and infinities. *)
Definition trunc (f : float) : result Z :=
  match f with
  | S754_zero _ => Ok 0
  | S754_finite s m e => Ok (cond_Zopp s (Z.shiftl (Zpos m) e))
  | S754_nan => Raise ValueError
  | S754_infinity _ => Raise OverflowError
  end.

(** [math.floor(f)]: rounding toward minus infinity; fails on NaN and
    infinities with the same exceptions as [int]. *)
Definition floor (f : float) : result Z :=
  match f with
  | S754_zero _ => Ok 0
  | S754_finite s m e => Ok (Z.shiftl (cond_Zopp s (Zpos m)) e)
  | S754_nan => Raise ValueError
  | S754_infinity _ => Raise OverflowError
  end.

End F64.

(* ===================================================================== *)
(** ** Decimal rendering of floats *)
(* ===================================================================== *)

Module Fmt.

(** Decimal digits of a natural number. *)
Definition digits (n : Z) : string :=
  NilZero.string_of_uint (N.to_uint (Z.to_N n)).

Definition nb_digits (n : positive) : Z :=
  Z.of_nat (Decimal.nb_digits (Pos.to_uint n)).

Fixpoint zeros (n : nat) : string :=
  match n with
  | O => EmptyString
  | S n' => String "0" (zeros n')
  end.

(** [n] written with at least [w] digits, padded with zeros on the left. *)
Definition pad_left (w : nat) (s : string) : string :=
  zeros (w - String.length s) +:+ s.

(** The quotient [n / d] rounded to the nearest integer, ties to even;
    [n >= 0] and [d > 0]. *)
Definition div_half_even (n d : Z) : Z :=
  let q := n / d in
  let r := n mod d in
  match 2 * r ?= d with
  | Lt => q
  | Gt => q + 1
  | Eq => if Z.even q then q else q + 1
  end.

(** The magnitude [m * 2^e] as a fraction (numerator, denominator). *)
Definition fraction (m : positive) (e : Z) : Z * Z :=
  match e with
  | Zneg p => (Zpos m, 2 ^ Zpos p)
  | _ => (Zpos m * 2 ^ e, 1)
  end.

(** [n / (d * 10^k)] as a fraction, for any integer [k]. *)
Definition scale10 (nd : Z * Z) (k : Z) : Z * Z :=
  let '(n, d) := nd in
  if 0 <=? k then (n, d * 10 ^ k) else (n * 10 ^ (- k), d).

(** [round(m * 2^e * 10^p)] to the nearest integer, ties to even. *)
Definition scaled_round (m : positive) (e : Z) (p : Z) : Z :=
  let '(n, d) := scale10 (fraction m e) (- p) in
  div_half_even n d.

Definition sign_string (s : bool) : string :=
  if s then "-"%string else EmptyString.

(** Fixed-point rendering of the non-negative integer [N] standing for
    [N * 10^(-p)], with exactly [p] digits after the point. *)
Definition fixed (N : Z) (p : nat) : string :=
  let w := 10 ^ Z.of_nat p in
  let ip := digits (N / w) in
  match p with
  | O => ip
  | _ => ip +:+ "." +:+ pad_left p (digits (N mod w))
  end.

(** [format(f, '.{p}f')]: correctly rounded (ties to even on the exact
    binary value), with exactly [p] digits after the point. *)
Definition format_f (p : nat) (f : F64.float) : string :=
  match f with
  | S754_nan => "nan"
  | S754_infinity s => sign_string s +:+ "inf"
  | S754_zero s => sign_string s +:+ fixed 0 p
  | S754_finite s m e =>
      sign_string s +:+ fixed (scaled_round m e (Z.of_nat p)) p
  end.

(** The decimal exponent [floor(log10 (m * 2^e))], computed exactly. *)
Definition decimal_exponent (m : positive) (e : Z) : Z :=
  let '(n, d) := fraction m e in
  let k := nb_digits (Z.to_pos n) - nb_digits (Z.to_pos d) in
  let '(n', d') := scale10 (n, d) k in
  if d' <=? n' then k else k - 1.

(** The [p] significant digits of [m * 2^e], correctly rounded, and the
    decimal exponent of the rounded number. *)
Definition sig_digits (m : positive) (e : Z) (p : Z) : Z * Z :=
  let x := decimal_exponent m e in
  let D := scaled_round m e (p - 1 - x) in
  if 10 ^ p <=? D then (10 ^ (p - 1), x + 1) else (D, x).

(** Removal of trailing zeros of a digit string. *)
Fixpoint strip_zeros (s : string) : string :=
  match s with
  | EmptyString => EmptyString
  | String c r =>
      match strip_zeros r with
      | EmptyString => if Ascii.eqb c "0" then EmptyString else String c EmptyString
      | r' => String c r'
      end
  end.

Definition substring_from (n : nat) (s : string) : string :=
  String.substring n (String.length s - n) s.

(** The exponent suffix of the scientific notation: sign and at least two
    digits. *)
Definition exponent_suffix (x : Z) : string :=
  "e" +:+ (if x <? 0 then "-" else "+") +:+ pad_left 2 (digits (Z.abs x)).

(** Rendering of the stripped digit string [ds] (first digit non-zero)
    of a number with decimal exponent [x] in the general format with
    precision [p]. *)
Definition general (ds : string) (x p : Z) : string :=
  let n := Z.of_nat (String.length ds) in
  if (x <? -4) || (p <=? x) then
    String.substring 0 1 ds
      +:+ (if 1 <? n then "." +:+ substring_from 1 ds else EmptyString)
      +:+ exponent_suffix x
  else if x <? 0 then
    "0." +:+ zeros (Z.to_nat (- x - 1)) +:+ ds
  else if n <=? x + 1 then
    ds +:+ zeros (Z.to_nat (x + 1 - n))
  else
    String.substring 0 (Z.to_nat (x + 1)) ds
      +:+ "." +:+ substring_from (Z.to_nat (x + 1)) ds.

(** [format(f, '.{p}g')]: a negative precision is not a valid format
    specification, precision 0 is treated as 1. *)
Definition format_g (p : Z) (f : F64.float) : result string :=
  if p <? 0 then Raise ValueError else
  let p := Z.max p 1 in
  Ok match f with
     | S754_nan => "nan"
     | S754_infinity s => sign_string s +:+ "inf"
     | S754_zero s => sign_string s +:+ "0"
     | S754_finite s m e =>
         let '(D, x) := sig_digits m e p in
         sign_string s +:+ general (strip_zeros (digits D)) x p
     end%string.

End Fmt.

(* ===================================================================== *)
(** ** Python scalars and their equality *)
(* ===================================================================== *)

(** The values found in a column or passed as a number: [None], [bool],
    [int], [float] and [str]. *)
Inductive scalar : Type :=
  | VNone
  | VBool (b : bool)
  | VInt (z : Z)
  | VFloat (f : F64.float)
  | VStr (s : string).

(** Python compares [bool], [int] and [float] by their exact numerical
    value ([True == 1 == 1.0]); a NaN equals nothing, a string equals only
    the same string.  [key] sends a scalar to a canonical form of its value:
    two scalars other than NaN are equal exactly when their keys are. *)
Inductive key : Type :=
  | KNone
  | KNaN
  | KInf (s : bool)
  | KInt (z : Z)
  | KFrac (s : bool) (m : positive) (e : Z)
  | KStr (s : string).

#[global] Instance key_eq_dec : EqDecision key.
Proof. solve_decision. Defined.

(** [m * 2^e] with the trailing zero bits of [m] moved into a negative
    exponent: the result has [e >= 0] or [m] odd. *)
Fixpoint strip_bits (m : positive) (e : Z) : positive * Z :=
  match m with
  | xO m' => if e <? 0 then strip_bits m' (e + 1) else (m, e)
  | _ => (m, e)
  end.

Definition key_of_float (f : F64.float) : key :=
  match f with
  | S754_nan => KNaN
  | S754_infinity s => KInf s
  | S754_zero _ => KInt 0
  | S754_finite s m e =>
      let '(m', e') := strip_bits m e in
      if 0 <=? e' then KInt (cond_Zopp s (Zpos m' * 2 ^ e')) else KFrac s m' e'
  end.

Definition key_of (v : scalar) : key :=
  match v with
  | VNone => KNone
  | VBool b => KInt (if b then 1 else 0)
  | VInt z => KInt z
  | VFloat f => key_of_float f
  | VStr s => KStr s
  end.

(** [a == b] *)
Definition py_eq (a b : scalar) : bool :=
  match key_of a, key_of b with
  | KNaN, _ | _, KNaN => false
  | ka, kb => bool_decide (ka = kb)
  end.

(** [pd.isna]: [None] and NaN are the missing values. *)
Definition isna (v : scalar) : bool :=
  match v with
  | VNone => true
  | VFloat f => F64.is_nan f
  | _ => false
  end.

(** *** Sets of scalars

    A [set] holds its elements up to [==]; it is represented by the list of
    its elements in insertion order, no two of them equal.  Each NaN read
    from a column is an object of its own and equals nothing, so it is an
    element of its own. *)
Definition py_in (x : scalar) (s : list scalar) : bool :=
  existsb (py_eq x) s.

Definition set_add (s : list scalar) (x : scalar) : list scalar :=
  if py_in x s then s else s ++ [x].

Definition set_of_list (xs : list scalar) : list scalar :=
  fold_left set_add xs [].

Definition set_diff (s t : list scalar) : list scalar :=
  List.filter (fun x => negb (py_in x t)) s.

(* ===================================================================== *)
(** ** The store *)
(* ===================================================================== *)

Definition loc : Type := positive.

(** The dtype of a column: categorical with its declared categories, or
    any other dtype. *)
Inductive dtype : Type :=
  | Plain
  | Category (declared : list scalar).

Record Series : Type := mkSeries {
  s_values : list scalar;
  s_dtype : dtype
}.

Inductive object : Type :=
  | OList (items : list scalar)
  | OSet (elements : list scalar)
  | OSeries (s : Series)
  | OIndex (labels : list scalar)
  | OCategorical (categories : list scalar) (codes : list (option nat))
  | ODataArray (samples : list F64.float).

(** The state of a run: the heap of objects, and the arguments with which
    the logarithm has been evaluated so far (most recent first). *)
Record state : Type := mkState {
  heap : gmap loc object;
  log10_args : list F64.float
}.

(** Computations: state passing with exceptions. *)
Definition M (A : Type) : Type := state -> result A * state.

#[global] Instance M_ret : MRet M := fun A a st => (Ok a, st).

#[global] Instance M_bind : MBind M := fun A B k m st =>
  match m st with
  | (Ok a, st') => k a st'
  | (Raise e, st') => (Raise e, st')
  end.

Definition raise {A : Type} (e : exn) : M A := fun st => (Raise e, st).

Definition lift {A : Type} (r : result A) : M A := fun st => (r, st).

(** The value a computation returns, and the state it leaves. *)
Definition eval {A : Type} (m : M A) (st : state) : result A := fst (m st).
Definition exec {A : Type} (m : M A) (st : state) : state := snd (m st).

(** Allocation of a new object at an unused location. *)
Definition new_loc (st : state) : loc := fresh (dom (heap st)).

Definition store_new (o : object) (st : state) : state :=
  mkState (<[new_loc st := o]> (heap st)) (log10_args st).

Definition alloc (o : object) : M loc := fun st =>
  (Ok (new_loc st), store_new o st).

Definition deref (l : loc) : M object := fun st =>
  match heap st !! l with
  | Some o => (Ok o, st)
  | None => (Raise BadRef, st)
  end.

(** Iteration over an object yields its elements (the elements of a
    [DataArray] are arrays, not scalars: iterating one is left out). *)
Definition iter (l : loc) : M (list scalar) :=
  o ← deref l;
  match o with
  | OList xs | OSet xs | OIndex xs => mret xs
  | OSeries s => mret (s_values s)
  | OCategorical cats codes =>
      mret (List.map (fun c => match c with
                               | Some i => nth i cats (VFloat F64.nan)
                               | None => VFloat F64.nan
                               end) codes)
  | ODataArray _ => raise BadRef
  end.

(** [len(obj)] *)
Definition py_len (l : loc) : M Z :=
  xs ← iter l;
  mret (Z.of_nat (length xs)).

(** [[x1, ..., xn]] *)
Definition new_list (xs : list scalar) : M loc := alloc (OList xs).

(** [set(iterable)] *)
Definition py_set (l : loc) : M loc :=
  xs ← iter l;
  alloc (OSet (set_of_list xs)).

(** [s.difference(t)]: a new set; only a set has the method. *)
Definition set_difference (s t : loc) : M loc :=
  o ← deref s;
  match o with
  | OSet xs =>
      ys ← iter t;
      alloc (OSet (set_diff xs ys))
  | _ => raise AttributeError
  end.

(** *** pandas' [Categorical] *)

(** The position of a value among the categories. *)
Fixpoint index_of (x : scalar) (cats : list scalar) (i : nat) : option nat :=
  match cats with
  | [] => None
  | c :: r => if py_eq x c then Some i else index_of x r (S i)
  end.

(** The values of a column that are not missing. *)
Definition observed (xs : list scalar) : list scalar :=
  List.filter (fun v => negb (isna v)) xs.

(** The categories [pd.Categorical(series)] gets: a column of categorical
    dtype hands over the categories its dtype declares; for any other
    column they are the distinct values that are not missing (pandas also
    sorts them when they can be ordered, which permutes the list). *)
Definition categories_of (s : Series) : list scalar :=
  match s_dtype s with
  | Category declared => declared
  | Plain => set_of_list (observed (s_values s))
  end.

(** [pd.Categorical(series)] *)
Definition pd_Categorical (series : loc) : M loc :=
  o ← deref series;
  match o with
  | OSeries s =>
      let cats := categories_of s in
      alloc (OCategorical cats (List.map (fun v => index_of v cats 0) (s_values s)))
  | _ => raise BadRef
  end.

(** [c.categories]: the index of the categories. *)
Definition get_categories (c : loc) : M loc :=
  o ← deref c;
  match o with
  | OCategorical cats _ => alloc (OIndex cats)
  | _ => raise AttributeError
  end.

(* ===================================================================== *)
(** ** The column predicates *)
(* ===================================================================== *)

(** [len(set(series).difference(set([0, 1]))) == 0] *)
Definition _is_variable_dummy_coded (series : loc) : M bool :=
  s ← py_set series;
  l01 ← new_list [VInt 0; VInt 1];
  t ← py_set l01;
  d ← set_difference s t;
  n ← py_len d;
  mret (n =? 0).

(** [len(pd.Categorical(series).categories) == 2] *)
Definition _series_has_2_levels (series : loc) : M bool :=
  c ← pd_Categorical series;
  cats ← get_categories c;
  n ← py_len cats;
  mret (n =? 2).

(* ===================================================================== *)
(** ** Significant figures and value formatting *)
(* ===================================================================== *)

(** An argument of [convert_to_string]: a Python scalar, or a reference to
    an [xr.DataArray]. *)
Inductive arg : Type :=
  | Scalar (v : scalar)
  | DataArrayRef (l : loc).

(** The float literals of the source. *)
Definition lit_0_03 : F64.float := F64.of_decimal 3 2.
Definition lit_1 : F64.float := F64.of_Z 1.

(** The label of the interval, [r"$CI_{94\%}$"]. *)
Definition ci_label : string := "$CI_{94\%}$".

Section Numeric.

(** The numerical kernels of numpy and xarray on binary64 data: the
    base-10 logarithm, and the mean and the [q]-quantile of the samples of
    an array. *)
Variable np_log10 : F64.float -> F64.float.
Variable np_mean : list F64.float -> F64.float.
Variable np_quantile : list F64.float -> F64.float -> F64.float.

(** [np.log10(x)]; the evaluation is recorded in the state. *)
Definition log10 (x : F64.float) : M F64.float := fun st =>
  (Ok (np_log10 x), mkState (heap st) (x :: log10_args st)).

(** [value == 0] for a float [value]. *)
Definition eq_zero (value : F64.float) : bool := py_eq (VFloat value) (VInt 0).

Definition _format_sig_figs (value : F64.float) (default : option Z) : M Z :=
  let default := match default with None => 2 | Some d => d end in
  if eq_zero value then mret 1
  else
    l ← log10 (F64.abs value);
    i ← lift (F64.trunc l);
    mret (Z.max (i + 1) default).

Definition round_num (n : F64.float) (round_to : option Z) : M string :=
  sig_figs ← _format_sig_figs n round_to;
  lift (Fmt.format_g sig_figs n).

(** A quantile level: a number between 0 and 1. *)
Definition quantile_level (q : scalar) : result F64.float :=
  match q with
  | VFloat f =>
      if SFleb F64.zero f && SFleb f lit_1 then Ok f else Raise ValueError
  | VInt z => if (0 <=? z) && (z <=? 1) then Ok (F64.of_Z z) else Raise ValueError
  | VBool b => Ok (F64.of_Z (if b then 1 else 0))
  | _ => Raise TypeError
  end.

(** The quantiles of the samples at each level, in order. *)
Fixpoint quantiles (samples : list F64.float) (levels : list scalar)
  : result (list F64.float) :=
  match levels with
  | [] => Ok []
  | q :: r =>
      match quantile_level q with
      | Raise e => Raise e
      | Ok f =>
          match quantiles samples r with
          | Raise e => Raise e
          | Ok fs => Ok (np_quantile samples f :: fs)
          end
      end
  end.

(** [x.quantile(qs)]: a new array holding one quantile per level. *)
Definition da_quantile (x qs : loc) : M loc :=
  o ← deref x;
  match o with
  | ODataArray samples =>
      levels ← iter qs;
      fs ← lift (quantiles samples levels);
      alloc (ODataArray fs)
  | _ => raise BadRef
  end.

(** [x.mean()]: a new array of dimension 0 holding the mean. *)
Definition da_mean (x : loc) : M loc :=
  o ← deref x;
  match o with
  | ODataArray samples => alloc (ODataArray [np_mean samples])
  | _ => raise BadRef
  end.

(** [x.values]: the numbers of the array. *)
Definition da_values (x : loc) : M (list F64.float) :=
  o ← deref x;
  match o with
  | ODataArray samples => mret samples
  | _ => raise BadRef
  end.

(** [a[i]] *)
Definition getitem (a : list F64.float) (i : nat) : M F64.float :=
  match a !! i with
  | Some x => mret x
  | None => raise IndexError
  end.

(** [format(a, '.2f')] for an array of dimension 0 formats its item; an
    array with other dimensions does not support the specification. *)
Definition format_array_2f (a : list F64.float) : M string :=
  match a with
  | [x] => mret (Fmt.format_f 2 x)
  | _ => raise TypeError
  end.

Definition convert_to_string (x : arg) (round_to : option Z) : M string :=
  match x with
  | Scalar (VFloat f) => mret (Fmt.format_f 2 f)
  | Scalar _ => raise AttributeError
  | DataArrayRef l =>
      qs ← new_list [VFloat lit_0_03; VFloat (F64.sub lit_1 lit_0_03)];
      q ← da_quantile l qs;
      percentiles ← da_values q;
      p0 ← getitem percentiles 0;
      lo ← round_num p0 round_to;
      p1 ← getitem percentiles 1;
      hi ← round_num p1 round_to;
      let ci := ci_label +:+ ("[" +:+ lo +:+ ", " +:+ hi +:+ "]") in
      m ← da_mean l;
      mv ← da_values m;
      ms ← format_array_2f mv;
      mret (ms +:+ ci)
  end.

(** The default in force: 2 when unset. *)
Definition default_or_2 (default : option Z) : Z :=
  match default with None => 2 | Some d => d end.

(** The selector as the specification words it:
    [max(floor(log10(|value|)) + 1, default)], with 2 for a default
    that is unset. *)
Definition significant_figures_formula
    (value : F64.float) (default : option Z) : result Z :=
  match F64.floor (np_log10 (F64.abs value)) with
  | Ok k => Ok (Z.max (k + 1) (default_or_2 default))
  | Raise e => Raise e
  end.

(** The kernel's logarithm of a positive finite number lies in the decade
    of the number: its floor is the decimal exponent. *)
Definition in_decade (x : F64.float) : Prop :=
  match x with
  | S754_finite false m e =>
      F64.floor (np_log10 x) = Ok (Fmt.decimal_exponent m e)
  | _ => False
  end.

(** The state after a run of [round_num]: the heap is the same, and the
    logarithm has been evaluated once unless the number is zero. *)
Definition log_after (n : F64.float) (st : state) : state :=
  if eq_zero n then st else mkState (heap st) (F64.abs n :: log10_args st).

End Numeric.

(** The default of the parameter [round_to]. *)
Definition default_round_to : option Z := Some 2.

(** A sample logarithm kernel: the logarithm rounded down to an integer,
    computed exactly.  Any kernel whose value lies in the same decade as
    the exact logarithm truncates like this one. *)
Definition log10_decade (x : F64.float) : F64.float :=
  match x with
  | S754_nan => S754_nan
  | S754_zero _ => S754_infinity true
  | S754_infinity s => if s then S754_nan else S754_infinity false
  | S754_finite s m e =>
      if s then S754_nan else F64.of_Z (Fmt.decimal_exponent m e)
  end.

(** Sample kernels for the mean and the quantile of two-point data. *)
Definition mean_sample (xs : list F64.float) : F64.float :=
  nth 0 xs F64.nan.
Definition quantile_sample (xs : list F64.float) (q : F64.float) : F64.float :=
  if F64.is_zero (F64.sub q lit_0_03) then nth 1 xs F64.nan else nth 2 xs F64.nan.

Definition empty_state : state := mkState ∅ [].

(* ===================================================================== *)
(** ** Properties of columns and of computations *)
(* ===================================================================== *)

(** The elements an object yields when iterated. *)
Definition elements_of (o : object) : option (list scalar) :=
  match o with
  | OList xs | OSet xs | OIndex xs => Some xs
  | OSeries s => Some (s_values s)
  | _ => None
  end.

(** Membership in [{0, 1}]. *)
Definition in_0_1 (v : scalar) : bool := py_in v [VInt 0; VInt 1].

(** Exactly two distinct labels occur among the values that are not
    missing: two different labels occur, and every other one equals one of
    them. *)
Definition exactly_two_labels (xs : list scalar) : Prop :=
  ∃ a b, a ∈ xs /\ b ∈ xs /\ isna a = false /\ isna b = false /\
         py_eq a b = false /\
         forall v, v ∈ xs -> isna v = false -> py_eq v a = true \/ py_eq v b = true.

(** A column with missing values added at any positions. *)
Inductive with_nan_added : list scalar -> list scalar -> Prop :=
  | nan_added_nil : with_nan_added [] []
  | nan_added_keep (v : scalar) (xs ys : list scalar) :
      with_nan_added xs ys -> with_nan_added (v :: xs) (v :: ys)
  | nan_added_here (xs ys : list scalar) :
      with_nan_added xs ys -> with_nan_added xs (VFloat F64.nan :: ys).

(** A computation keeps the store: every object of the heap before the run
    is at the same location, unchanged, after it (objects may be added at
    new locations). *)
Definition keeps_store {A : Type} (m : M A) : Prop :=
  forall st, heap st ⊆ heap (exec m st).

(* ===================================================================== *)
(** ** Sample data *)
(* ===================================================================== *)

(** Sample numbers. *)
Definition lit_0_97 : F64.float := F64.of_decimal 97 2.
Definition lit_0_1234 : F64.float := F64.of_decimal 1234 4.
Definition lit_123_4 : F64.float := F64.of_decimal 1234 1.
Definition lit_3_14159 : F64.float := F64.of_decimal 314159 5.
Definition lit_0_5 : F64.float := F64.of_decimal 5 1.
Definition lit_1_5 : F64.float := F64.of_decimal 15 1.

(** A store that holds one column, at location 1. *)
Definition state_of_series (s : Series) : state :=
  mkState {[ 1%positive := OSeries s ]} [].

Definition col_0_1_1_0 : Series := mkSeries [VInt 0; VInt 1; VInt 1; VInt 0] Plain.
Definition col_0_1_2 : Series := mkSeries [VInt 0; VInt 1; VInt 2] Plain.
Definition col_empty : Series := mkSeries [] Plain.
Definition col_bools : Series := mkSeries [VBool true; VBool false; VBool true] Plain.

Definition col_a_b_a : Series := mkSeries [VStr "a"; VStr "b"; VStr "a"] Plain.
Definition col_a_b_c : Series := mkSeries [VStr "a"; VStr "b"; VStr "c"] Plain.
Definition col_a_a_a : Series := mkSeries [VStr "a"; VStr "a"; VStr "a"] Plain.

(** The column [["a", "b", "a"]] of a categorical dtype that declares the
    categories ["a"], ["b"] and ["c"]. *)
Definition col_a_b_a_declared_c : Series :=
  mkSeries [VStr "a"; VStr "b"; VStr "a"] (Category [VStr "a"; VStr "b"; VStr "c"]).

(** The column [["a", nan, "b", "a", nan]]. *)
Definition col_a_b_a_nan : Series :=
  mkSeries [VStr "a"; VFloat F64.nan; VStr "b"; VStr "a"; VFloat F64.nan] Plain.

(** The same column with a categorical dtype that declares the categories
    ["a"], ["b"] and ["c"]. *)
Definition col_a_b_a_nan_declared_c : Series :=
  mkSeries [VStr "a"; VFloat F64.nan; VStr "b"; VStr "a"; VFloat F64.nan]
    (Category [VStr "a"; VStr "b"; VStr "c"]).

(** A store that holds one array of samples, at location 1. *)
Definition state_of_samples (samples : list F64.float) : state :=
  mkState {[ 1%positive := ODataArray samples ]} [].

(** Samples whose sample mean is 1.0 and whose sample quantiles are 0.5
    and 1.5. *)
Definition samples_1_05_15 : list F64.float := [lit_1; lit_0_5; lit_1_5].

(* ===================================================================== *)
(** ** Further properties and samples *)
(* ===================================================================== *)

(** The sign of a float that has one: NaN has none. *)
Definition float_is_negative (f : F64.float) : bool :=
  match f with
  | S754_zero s | S754_infinity s | S754_finite s _ _ => s
  | S754_nan => false
  end.

(** Every label of [xs] that is not missing equals a label of [ys]. *)
Definition labels_among (xs ys : list scalar) : Prop :=
  forall v, v ∈ xs -> isna v = false -> ∃ u, u ∈ ys /\ py_eq v u = true.

(** The sample numbers of the docstring of [_format_sig_figs], and a small
    one. *)
Definition lit_1_234 : F64.float := F64.of_decimal 1234 3.
Definition lit_12_34 : F64.float := F64.of_decimal 1234 2.

(** Further sample columns. *)
Definition col_0_nan : Series := mkSeries [VInt 0; VFloat F64.nan] Plain.
Definition col_nan_none : Series := mkSeries [VFloat F64.nan; VNone] Plain.
Definition col_1_0 : Series := mkSeries [VInt 1; VInt 0] Plain.
Definition col_1_0_1_0 : Series := mkSeries [VInt 1; VInt 0; VInt 1; VInt 0] Plain.
Definition col_true_0_1 : Series :=
  mkSeries [VBool true; VInt 0; VFloat lit_1; VBool true] Plain.

(** A store that holds three columns, at locations 1, 2 and 3. *)
Definition state_of_three (s1 s2 s3 : Series) : state :=
  mkState (<[ 1%positive := OSeries s1 ]>
             (<[ 2%positive := OSeries s2 ]> {[ 3%positive := OSeries s3 ]})) [].

(* ===================================================================== *)
(** ** Running computations *)
(* ===================================================================== *)

Lemma bind_run {A B : Type} (m : M A) (k : A -> M B) (st : state) :
  (m ≫= k) st =
  match m st with
  | (Ok a, st') => k a st'
  | (Raise e, st') => (Raise e, st')
  end.
Proof. reflexivity. Qed.

Lemma ret_run {A : Type} (a : A) (st : state) : (mret a : M A) st = (Ok a, st).
Proof. reflexivity. Qed.

Lemma new_loc_fresh (st : state) : heap st !! new_loc st = None.
Proof. apply not_elem_of_dom. unfold new_loc. apply is_fresh. Qed.

Lemma store_new_eq (o : object) (st : state) :
  heap (store_new o st) !! new_loc st = Some o.
Proof. unfold store_new; simpl. apply lookup_insert_eq. Qed.

Lemma store_new_old (o o' : object) (st : state) (l : loc) :
  heap st !! l = Some o' -> heap (store_new o st) !! l = Some o'.
Proof.
  intros Hl. unfold store_new; simpl.
  rewrite lookup_insert_ne; [exact Hl|].
  intros Heq. rewrite <- Heq, new_loc_fresh in Hl. discriminate.
Qed.

Lemma store_new_log (o : object) (st : state) :
  log10_args (store_new o st) = log10_args st.
Proof. reflexivity. Qed.

Lemma deref_run (st : state) (l : loc) (o : object) :
  heap st !! l = Some o -> deref l st = (Ok o, st).
Proof. intros Hl. unfold deref. rewrite Hl. reflexivity. Qed.

Lemma iter_run (st : state) (l : loc) (o : object) (xs : list scalar) :
  heap st !! l = Some o -> elements_of o = Some xs ->
  iter l st = (Ok xs, st).
Proof.
  intros Hl He. unfold iter. rewrite bind_run, (deref_run _ _ _ Hl).
  destruct o; simpl in He; inversion He; reflexivity.
Qed.

Lemma py_len_run (st : state) (l : loc) (o : object) (xs : list scalar) :
  heap st !! l = Some o -> elements_of o = Some xs ->
  py_len l st = (Ok (Z.of_nat (length xs)), st).
Proof.
  intros Hl He. unfold py_len.
  rewrite bind_run, (iter_run _ _ _ _ Hl He). reflexivity.
Qed.

Lemma py_set_run (st : state) (l : loc) (o : object) (xs : list scalar) :
  heap st !! l = Some o -> elements_of o = Some xs ->
  py_set l st = (Ok (new_loc st), store_new (OSet (set_of_list xs)) st).
Proof.
  intros Hl He. unfold py_set.
  rewrite bind_run, (iter_run _ _ _ _ Hl He). reflexivity.
Qed.

Lemma set_difference_run (st : state) (s t : loc) (xs ys : list scalar) (o : object) :
  heap st !! s = Some (OSet xs) ->
  heap st !! t = Some o -> elements_of o = Some ys ->
  set_difference s t st = (Ok (new_loc st), store_new (OSet (set_diff xs ys)) st).
Proof.
  intros Hs Ht He. unfold set_difference.
  rewrite bind_run, (deref_run _ _ _ Hs).
  rewrite bind_run, (iter_run _ _ _ _ Ht He). reflexivity.
Qed.

Lemma pd_Categorical_run (st : state) (series : loc) (s : Series) :
  heap st !! series = Some (OSeries s) ->
  pd_Categorical series st =
  (Ok (new_loc st),
   store_new (OCategorical (categories_of s)
                (List.map (fun v => index_of v (categories_of s) 0) (s_values s))) st).
Proof.
  intros Hs. unfold pd_Categorical.
  rewrite bind_run, (deref_run _ _ _ Hs). reflexivity.
Qed.

Lemma get_categories_run (st : state) (c : loc) (cats : list scalar) codes :
  heap st !! c = Some (OCategorical cats codes) ->
  get_categories c st = (Ok (new_loc st), store_new (OIndex cats) st).
Proof.
  intros Hc. unfold get_categories.
  rewrite bind_run, (deref_run _ _ _ Hc). reflexivity.
Qed.

(** The value of the dummy-coding check on a column. *)
Lemma is_variable_dummy_coded_run (st : state) (series : loc) (s : Series) :
  heap st !! series = Some (OSeries s) ->
  eval (_is_variable_dummy_coded series) st =
  Ok (Z.of_nat (length (set_diff (set_of_list (s_values s)) [VInt 0; VInt 1])) =? 0).
Proof.
  intros Hs. unfold eval, _is_variable_dummy_coded.
  rewrite bind_run, (py_set_run _ _ _ _ Hs eq_refl).
  set (st1 := store_new _ st).
  rewrite bind_run. unfold new_list, alloc.
  set (st2 := store_new _ st1).
  rewrite bind_run, (py_set_run st2 (new_loc st1) _ _ (store_new_eq _ _) eq_refl).
  set (st3 := store_new _ st2).
  assert (H1 : heap st3 !! new_loc st = Some (OSet (set_of_list (s_values s)))).
  { do 2 apply store_new_old. apply store_new_eq. }
  rewrite bind_run,
    (set_difference_run st3 _ _ _ [VInt 0; VInt 1] _ H1 (store_new_eq _ _) eq_refl).
  rewrite bind_run.
  erewrite py_len_run; [reflexivity | apply store_new_eq | reflexivity].
Qed.

(** The value of the two-level check on a column. *)
Lemma series_has_2_levels_run (st : state) (series : loc) (s : Series) :
  heap st !! series = Some (OSeries s) ->
  eval (_series_has_2_levels series) st =
  Ok (Z.of_nat (length (categories_of s)) =? 2).
Proof.
  intros Hs. unfold eval, _series_has_2_levels.
  rewrite bind_run, (pd_Categorical_run _ _ _ Hs).
  rewrite bind_run, (get_categories_run _ _ _ _ (store_new_eq _ _)).
  rewrite bind_run.
  erewrite py_len_run; [reflexivity | apply store_new_eq | reflexivity].
Qed.

(* ===================================================================== *)
(** ** Equality of scalars and sets *)
(* ===================================================================== *)

Lemma py_eq_key (a b : scalar) :
  py_eq a b = true <-> key_of a = key_of b /\ key_of a <> KNaN.
Proof.
  unfold py_eq.
  destruct (key_of a) eqn:Ka, (key_of b) eqn:Kb;
    try rewrite bool_decide_eq_true; split; intros H;
    try discriminate; try (split; congruence); tauto || (destruct H; congruence).
Qed.

Lemma py_eq_sym (a b : scalar) : py_eq a b = py_eq b a.
Proof.
  apply eq_true_iff_eq. rewrite !py_eq_key.
  split; intros [H1 H2]; split; congruence.
Qed.

Lemma py_eq_trans (a b c : scalar) :
  py_eq a b = true -> py_eq b c = true -> py_eq a c = true.
Proof. rewrite !py_eq_key. intros [H1 H2] [H3 H4]. split; congruence. Qed.

Lemma py_eq_refl (a : scalar) : key_of a <> KNaN -> py_eq a a = true.
Proof. intros H. apply py_eq_key. split; [reflexivity | exact H]. Qed.

(** A missing value equals no label but [None] itself; a value that is not
    missing is not a NaN. *)
Lemma notna_key (v : scalar) : isna v = false -> key_of v <> KNaN.
Proof.
  destruct v as [ | b | z | f | s]; simpl; try discriminate.
  destruct f as [ | | | sg m e]; simpl; try discriminate.
  intros _. destruct (strip_bits m e) as [m' e']. destruct (0 <=? e'); discriminate.
Qed.

Lemma py_in_key (x : scalar) (s : list scalar) :
  py_in x s = true <-> key_of x <> KNaN /\ key_of x ∈ key_of <$> s.
Proof.
  unfold py_in. rewrite existsb_exists. split.
  - intros [u [Hu He]]. apply py_eq_key in He as [He Hn]. split; [exact Hn|].
    rewrite He. apply list_elem_of_fmap_2. apply list_elem_of_In. exact Hu.
  - intros [Hn Hk]. apply list_elem_of_fmap in Hk as [u [He Hu]].
    exists u. split; [apply list_elem_of_In; exact Hu|].
    apply py_eq_key. split; assumption.
Qed.

Section SetOfList.

Implicit Types (acc xs : list scalar) (u v : scalar).

Lemma set_add_elem acc x u : u ∈ set_add acc x -> u ∈ acc \/ u = x.
Proof.
  unfold set_add. destruct (py_in x acc); [auto|].
  rewrite elem_of_app, list_elem_of_singleton. tauto.
Qed.

Lemma set_add_incl acc x u : u ∈ acc -> u ∈ set_add acc x.
Proof.
  unfold set_add. destruct (py_in x acc); [auto|].
  rewrite elem_of_app. auto.
Qed.

Lemma set_add_key acc x : ∃ u, u ∈ set_add acc x /\ key_of u = key_of x.
Proof.
  unfold set_add. destruct (py_in x acc) eqn:Hin.
  - apply py_in_key in Hin as [_ Hk].
    apply list_elem_of_fmap in Hk as [u [He Hu]]. exists u. auto.
  - exists x. split; [|reflexivity].
    rewrite elem_of_app, list_elem_of_singleton. auto.
Qed.

Lemma set_add_distinct acc x :
  key_of x <> KNaN -> NoDup (key_of <$> acc) -> NoDup (key_of <$> set_add acc x).
Proof.
  intros Hn Hd. unfold set_add. destruct (py_in x acc) eqn:Hin; [exact Hd|].
  rewrite fmap_app. apply NoDup_app. split; [exact Hd|]. split.
  - intros k Hk Hk'. simpl in Hk'. apply list_elem_of_singleton in Hk'. subst k.
    assert (py_in x acc = true) by (apply py_in_key; auto). congruence.
  - simpl. apply NoDup_singleton.
Qed.

Lemma fold_set_add_elem xs : forall acc u,
  u ∈ fold_left set_add xs acc -> u ∈ acc \/ u ∈ xs.
Proof.
  induction xs as [ | x xs IH]; intros acc u; simpl; [auto|].
  intros H. apply IH in H as [H | H].
  - apply set_add_elem in H as [H | ->]; [auto|]. right. left.
  - right. right. exact H.
Qed.

Lemma fold_set_add_incl xs : forall acc u,
  u ∈ acc -> u ∈ fold_left set_add xs acc.
Proof.
  induction xs as [ | x xs IH]; intros acc u H; simpl; [exact H|].
  apply IH. apply set_add_incl. exact H.
Qed.

Lemma fold_set_add_key xs : forall acc v,
  v ∈ xs -> ∃ u, u ∈ fold_left set_add xs acc /\ key_of u = key_of v.
Proof.
  induction xs as [ | x xs IH]; intros acc v Hv; simpl.
  - inversion Hv.
  - apply elem_of_cons in Hv as [-> | Hv].
    + destruct (set_add_key acc x) as [u [Hu Hk]].
      exists u. split; [|exact Hk]. apply fold_set_add_incl. exact Hu.
    + apply IH. exact Hv.
Qed.

Lemma fold_set_add_distinct xs : forall acc,
  Forall (fun v => key_of v <> KNaN) xs ->
  NoDup (key_of <$> acc) -> NoDup (key_of <$> fold_left set_add xs acc).
Proof.
  induction xs as [ | x xs IH]; intros acc Hn Hd; simpl; [exact Hd|].
  inversion Hn; subst. apply IH; [assumption|].
  apply set_add_distinct; assumption.
Qed.

(** The elements of [set(xs)] are elements of [xs]. *)
Lemma set_of_list_elem xs u : u ∈ set_of_list xs -> u ∈ xs.
Proof.
  intros H. apply fold_set_add_elem in H as [H | H]; [inversion H | exact H].
Qed.

(** Every element of [xs] is represented in [set(xs)]. *)
Lemma set_of_list_key xs v :
  v ∈ xs -> ∃ u, u ∈ set_of_list xs /\ key_of u = key_of v.
Proof. apply fold_set_add_key. Qed.

(** Without NaN, the elements of [set(xs)] are pairwise different. *)
Lemma set_of_list_distinct xs :
  Forall (fun v => key_of v <> KNaN) xs -> NoDup (key_of <$> set_of_list xs).
Proof. intros H. apply fold_set_add_distinct; [exact H | constructor]. Qed.

End SetOfList.

Lemma in_0_1_key (u v : scalar) : key_of u = key_of v -> in_0_1 u = in_0_1 v.
Proof. intros H. unfold in_0_1, py_in, py_eq; simpl. rewrite H. reflexivity. Qed.

(** The difference with [{0, 1}] is empty exactly when every value of the
    column is in [{0, 1}]. *)
Lemma set_diff_0_1_empty (xs : list scalar) :
  length (set_diff (set_of_list xs) [VInt 0; VInt 1]) = 0%nat <->
  forall v, v ∈ xs -> in_0_1 v = true.
Proof.
  unfold set_diff. split.
  - intros Hlen v Hv.
    destruct (set_of_list_key xs v Hv) as [u [Hu Hk]].
    rewrite <- (in_0_1_key u v Hk).
    destruct (in_0_1 u) eqn:Hin; [reflexivity|].
    assert (Hf : In u (List.filter (fun x => negb (py_in x [VInt 0; VInt 1])) (set_of_list xs))).
    { apply filter_In. split; [apply list_elem_of_In; exact Hu|].
      fold (in_0_1 u). rewrite Hin. reflexivity. }
    destruct (List.filter _ (set_of_list xs)); [inversion Hf | discriminate].
  - intros Hall.
    destruct (List.filter _ (set_of_list xs)) as [ | u r] eqn:Hf; [reflexivity|].
    assert (Hu : In u (List.filter (fun x => negb (py_in x [VInt 0; VInt 1])) (set_of_list xs))).
    { rewrite Hf. left. reflexivity. }
    apply filter_In in Hu as [Hu Hneg].
    apply list_elem_of_In, set_of_list_elem, Hall in Hu.
    unfold in_0_1 in Hu. rewrite Hu in Hneg. discriminate.
Qed.

(* ===================================================================== *)
(** ** Exactly two labels *)
(* ===================================================================== *)

Lemma observed_elem (xs : list scalar) (v : scalar) :
  v ∈ observed xs <-> v ∈ xs /\ isna v = false.
Proof.
  unfold observed. rewrite !list_elem_of_In, filter_In, negb_true_iff. tauto.
Qed.

Lemma observed_not_nan (xs : list scalar) :
  Forall (fun v => key_of v <> KNaN) (observed xs).
Proof.
  apply Forall_forall. intros v Hv. apply observed_elem in Hv as [_ Hv].
  apply notna_key. exact Hv.
Qed.

Lemma py_eq_false_key (a b : scalar) :
  key_of a <> KNaN -> py_eq a b = false -> key_of a <> key_of b.
Proof.
  intros Hn He Hk. assert (py_eq a b = true) by (apply py_eq_key; auto).
  congruence.
Qed.

(** The set of the observed values has two elements exactly when exactly
    two labels occur. *)
Lemma observed_set_length_two (xs : list scalar) :
  length (set_of_list (observed xs)) = 2%nat <-> exactly_two_labels xs.
Proof.
  pose proof (set_of_list_distinct _ (observed_not_nan xs)) as Hd.
  split.
  - intros Hlen.
    destruct (set_of_list (observed xs)) as [ | a [ | b [ | c r]]] eqn:Hs;
      try discriminate.
    assert (Ha : a ∈ observed xs) by (apply set_of_list_elem; rewrite Hs; left).
    assert (Hb : b ∈ observed xs)
      by (apply set_of_list_elem; rewrite Hs; right; left).
    apply observed_elem in Ha as [Ha Hna]. apply observed_elem in Hb as [Hb Hnb].
    exists a, b. repeat split; try assumption.
    + simpl in Hd. apply NoDup_cons in Hd as [Hab _].
      destruct (py_eq a b) eqn:He; [|reflexivity].
      apply py_eq_key in He as [He _]. exfalso. apply Hab. rewrite He. left.
    + intros v Hv Hnv.
      assert (Hv' : v ∈ observed xs) by (apply observed_elem; auto).
      destruct (set_of_list_key _ _ Hv') as [u [Hu Hk]].
      rewrite Hs in Hu. apply notna_key in Hnv.
      apply elem_of_cons in Hu as [-> | Hu].
      * left. apply py_eq_key. split; [congruence | exact Hnv].
      * apply list_elem_of_singleton in Hu as ->.
        right. apply py_eq_key. split; [congruence | exact Hnv].
  - intros (a & b & Ha & Hb & Hna & Hnb & Hab & Hall).
    assert (Hka : key_of a ∈ key_of <$> set_of_list (observed xs)).
    { destruct (set_of_list_key (observed xs) a) as [u [Hu Hk]];
        [apply observed_elem; auto|].
      rewrite <- Hk. apply list_elem_of_fmap_2. exact Hu. }
    assert (Hkb : key_of b ∈ key_of <$> set_of_list (observed xs)).
    { destruct (set_of_list_key (observed xs) b) as [u [Hu Hk]];
        [apply observed_elem; auto|].
      rewrite <- Hk. apply list_elem_of_fmap_2. exact Hu. }
    assert (Hne : key_of a <> key_of b)
      by (apply py_eq_false_key; [apply notna_key|]; assumption).
    assert (Hsub : forall k, k ∈ key_of <$> set_of_list (observed xs) ->
                             k ∈ [key_of a; key_of b]).
    { intros k Hk. apply list_elem_of_fmap in Hk as [u [-> Hu]].
      apply set_of_list_elem, observed_elem in Hu as [Hu Hnu].
      destruct (Hall u Hu Hnu) as [He | He]; apply py_eq_key in He as [He _];
        rewrite He; [left | right; left]. }
    assert (Hle : (length (key_of <$> set_of_list (observed xs)) <= 2)%nat).
    { apply (submseteq_length _ [key_of a; key_of b]).
      apply NoDup_submseteq; assumption. }
    assert (Hge : (2 <= length (key_of <$> set_of_list (observed xs)))%nat).
    { apply (submseteq_length [key_of a; key_of b]).
      apply NoDup_submseteq.
      - apply NoDup_cons. split; [|apply NoDup_singleton].
        intros H. apply list_elem_of_singleton in H. contradiction.
      - intros k Hk. apply elem_of_cons in Hk as [-> | Hk]; [exact Hka|].
        apply list_elem_of_singleton in Hk as ->. exact Hkb. }
    rewrite length_fmap in Hle, Hge. lia.
Qed.

Lemma with_nan_added_observed (xs ys : list scalar) :
  with_nan_added xs ys -> observed ys = observed xs.
Proof.
  induction 1 as [ | v xs ys _ IH | xs ys _ IH]; simpl.
  - reflexivity.
  - unfold observed in *. simpl. rewrite IH. reflexivity.
  - exact IH.
Qed.

Lemma categories_of_plain (s : Series) :
  s_dtype s = Plain -> categories_of s = set_of_list (observed (s_values s)).
Proof. intros H. unfold categories_of. rewrite H. reflexivity. Qed.

(* ===================================================================== *)
(** ** The dummy-coding check *)
(* ===================================================================== *)

(** C1. [_is_variable_dummy_coded] returns a boolean on every column, and
    it returns true if and only if every value of the column equals 0 or
    equals 1, that is, is a member of [{0, 1}]. *)
Theorem is_dummy_coded_iff_all_in_0_1 (st : state) (series : loc) (s : Series) :
  heap st !! series = Some (OSeries s) ->
  (∃ b, eval (_is_variable_dummy_coded series) st = Ok b) /\
  (eval (_is_variable_dummy_coded series) st = Ok true <->
   forall v, v ∈ s_values s -> py_eq v (VInt 0) = true \/ py_eq v (VInt 1) = true).
Proof.
  intros Hs. rewrite (is_variable_dummy_coded_run _ _ _ Hs).
  split; [eexists; reflexivity|].
  assert (H01 : forall v, in_0_1 v = true <->
                          py_eq v (VInt 0) = true \/ py_eq v (VInt 1) = true).
  { intros v. unfold in_0_1, py_in; simpl.
    rewrite !orb_true_iff. split; [intros [H | [H | H]] | intros [H | H]]; auto.
    discriminate. }
  split.
  - intros H. injection H as Hz. apply Z.eqb_eq in Hz.
    intros v Hv. apply H01. revert v Hv. apply set_diff_0_1_empty. lia.
  - intros H. f_equal. apply Z.eqb_eq.
    assert (Hl : length (set_diff (set_of_list (s_values s)) [VInt 0; VInt 1]) = 0%nat).
    { apply set_diff_0_1_empty. intros v Hv. apply H01. auto. }
    rewrite Hl. reflexivity.
Qed.

Lemma is_dummy_coded_iff_all_in_0_1_witness :
  heap (state_of_series col_0_1_1_0) !! 1%positive = Some (OSeries col_0_1_1_0) /\
  ((∃ b, eval (_is_variable_dummy_coded 1%positive) (state_of_series col_0_1_1_0) = Ok b) /\
   (eval (_is_variable_dummy_coded 1%positive) (state_of_series col_0_1_1_0) = Ok true <->
    forall v, v ∈ s_values col_0_1_1_0 ->
              py_eq v (VInt 0) = true \/ py_eq v (VInt 1) = true)).
Proof.
  split; [reflexivity|].
  apply (is_dummy_coded_iff_all_in_0_1 (state_of_series col_0_1_1_0) 1%positive col_0_1_1_0).
  reflexivity.
Defined.

(** The examples of the check: the empty column and a column of 0s and 1s
    are dummy coded, [[0, 1, 2]] is not. *)
Example is_dummy_coded_empty :
  eval (_is_variable_dummy_coded 1%positive) (state_of_series col_empty) = Ok true.
Proof. vm_compute. reflexivity. Qed.

Example is_dummy_coded_0_1_1_0 :
  eval (_is_variable_dummy_coded 1%positive) (state_of_series col_0_1_1_0) = Ok true.
Proof. vm_compute. reflexivity. Qed.

Example is_dummy_coded_0_1_2 :
  eval (_is_variable_dummy_coded 1%positive) (state_of_series col_0_1_2) = Ok false.
Proof. vm_compute. reflexivity. Qed.

(** C8. On a column that holds only the booleans [True] and [False],
    [_is_variable_dummy_coded] returns true: [True] equals 1 and [False]
    equals 0. *)
Theorem is_dummy_coded_booleans (st : state) (series : loc) (s : Series) :
  heap st !! series = Some (OSeries s) ->
  (forall v, v ∈ s_values s -> ∃ b, v = VBool b) ->
  eval (_is_variable_dummy_coded series) st = Ok true.
Proof.
  intros Hs Hb. rewrite (is_variable_dummy_coded_run _ _ _ Hs).
  f_equal. apply Z.eqb_eq.
  assert (Hl : length (set_diff (set_of_list (s_values s)) [VInt 0; VInt 1]) = 0%nat).
  { apply set_diff_0_1_empty. intros v Hv.
    destruct (Hb v Hv) as [[ | ] ->]; reflexivity. }
  rewrite Hl. reflexivity.
Qed.

Lemma is_dummy_coded_booleans_witness :
  heap (state_of_series col_bools) !! 1%positive = Some (OSeries col_bools) /\
  (forall v, v ∈ s_values col_bools -> ∃ b, v = VBool b) /\
  eval (_is_variable_dummy_coded 1%positive) (state_of_series col_bools) = Ok true.
Proof.
  assert (Hb : forall v, v ∈ s_values col_bools -> ∃ b, v = VBool b).
  { intros v Hv. simpl in Hv.
    repeat (apply elem_of_cons in Hv as [-> | Hv]; [eexists; reflexivity|]).
    inversion Hv. }
  split; [reflexivity|]. split; [exact Hb|].
  apply (is_dummy_coded_booleans (state_of_series col_bools) 1%positive col_bools);
    [reflexivity | exact Hb].
Defined.

(* ===================================================================== *)
(** ** The two-level check *)
(* ===================================================================== *)

Lemma col_a_b_a_two_labels : exactly_two_labels [VStr "a"; VStr "b"; VStr "a"].
Proof.
  exists (VStr "a"), (VStr "b").
  split; [left|]. split; [right; left|].
  repeat (split; [reflexivity|]).
  intros v Hv _.
  apply elem_of_cons in Hv as [-> | Hv]; [left; reflexivity|].
  apply elem_of_cons in Hv as [-> | Hv]; [right; reflexivity|].
  apply elem_of_cons in Hv as [-> | Hv]; [left; reflexivity|].
  inversion Hv.
Qed.

(** C2, as stated, fails: in the column [["a", "b", "a"]] exactly two labels
    occur, yet with a dtype that also declares ["c"] the check is false. *)
Lemma has_two_levels_counts_declared :
  heap (state_of_series col_a_b_a_declared_c) !! 1%positive
    = Some (OSeries col_a_b_a_declared_c) /\
  exactly_two_labels (s_values col_a_b_a_declared_c) /\
  eval (_series_has_2_levels 1%positive) (state_of_series col_a_b_a_declared_c)
    = Ok false.
Proof.
  split; [reflexivity|]. split; [exact col_a_b_a_two_labels|].
  vm_compute. reflexivity.
Qed.

(** C2, amended. [_series_has_2_levels] returns a boolean on every column.
    On a column whose dtype is not categorical it returns true if and only
    if exactly two distinct labels occur among the values that are not
    missing; on a column of categorical dtype it returns true if and only
    if the dtype declares exactly two categories, observed or not. *)
Theorem has_two_levels_iff (st : state) (series : loc) (s : Series) :
  heap st !! series = Some (OSeries s) ->
  (∃ b, eval (_series_has_2_levels series) st = Ok b) /\
  (eval (_series_has_2_levels series) st = Ok true <->
   match s_dtype s with
   | Plain => exactly_two_labels (s_values s)
   | Category declared => length declared = 2%nat
   end).
Proof.
  intros Hs. rewrite (series_has_2_levels_run _ _ _ Hs).
  split; [eexists; reflexivity|].
  assert (Hlen : Ok (Z.of_nat (length (categories_of s)) =? 2) = Ok true <->
                 length (categories_of s) = 2%nat).
  { split.
    - intros H. injection H as Hz. apply Z.eqb_eq in Hz. lia.
    - intros ->. reflexivity. }
  rewrite Hlen. destruct (s_dtype s) as [ | declared] eqn:Hd.
  - rewrite (categories_of_plain _ Hd). apply observed_set_length_two.
  - unfold categories_of. rewrite Hd. reflexivity.
Qed.

Lemma has_two_levels_iff_witness :
  heap (state_of_series col_a_b_a) !! 1%positive = Some (OSeries col_a_b_a) /\
  ((∃ b, eval (_series_has_2_levels 1%positive) (state_of_series col_a_b_a) = Ok b) /\
   (eval (_series_has_2_levels 1%positive) (state_of_series col_a_b_a) = Ok true <->
    exactly_two_labels (s_values col_a_b_a))).
Proof.
  split; [reflexivity|].
  apply (has_two_levels_iff (state_of_series col_a_b_a) 1%positive col_a_b_a).
  reflexivity.
Defined.

(** The examples of the check on columns that are not categorical. *)
Example has_two_levels_a_b_a :
  eval (_series_has_2_levels 1%positive) (state_of_series col_a_b_a) = Ok true.
Proof. vm_compute. reflexivity. Qed.

Example has_two_levels_a_b_c :
  eval (_series_has_2_levels 1%positive) (state_of_series col_a_b_c) = Ok false.
Proof. vm_compute. reflexivity. Qed.

Example has_two_levels_a_a_a :
  eval (_series_has_2_levels 1%positive) (state_of_series col_a_a_a) = Ok false.
Proof. vm_compute. reflexivity. Qed.

(** C10, as stated, fails on a column of categorical dtype: the values of
    [["a", "b", "a"]] that are not missing take exactly two labels, yet
    with the declared category ["c"] the result with NaN entries added is
    false (as it is without them). *)
Lemma has_two_levels_nan_declared :
  with_nan_added (s_values col_a_b_a_declared_c) (s_values col_a_b_a_nan_declared_c) /\
  exactly_two_labels (s_values col_a_b_a_declared_c) /\
  eval (_series_has_2_levels 1%positive) (state_of_series col_a_b_a_nan_declared_c)
    = Ok false.
Proof.
  split.
  - simpl. apply nan_added_keep, nan_added_here, nan_added_keep, nan_added_keep,
      nan_added_here, nan_added_nil.
  - split; [exact col_a_b_a_two_labels|]. vm_compute. reflexivity.
Qed.

(** C10, amended. Missing values are not counted as a level: adding NaN
    entries to a column, whatever its dtype, leaves the result of
    [_series_has_2_levels] as it was; and on a column that is not of
    categorical dtype and whose values that are not missing take exactly
    two distinct labels, the result with the NaN entries added is true. *)
Theorem has_two_levels_ignores_nan
    (st st' : state) (series series' : loc) (s s' : Series) :
  heap st !! series = Some (OSeries s) ->
  heap st' !! series' = Some (OSeries s') ->
  s_dtype s' = s_dtype s ->
  with_nan_added (s_values s) (s_values s') ->
  eval (_series_has_2_levels series') st' = eval (_series_has_2_levels series) st /\
  (s_dtype s = Plain -> exactly_two_labels (s_values s) ->
   eval (_series_has_2_levels series') st' = Ok true).
Proof.
  intros Hs Hs' Hd Hadd.
  rewrite (series_has_2_levels_run _ _ _ Hs), (series_has_2_levels_run _ _ _ Hs').
  assert (Hc : categories_of s' = categories_of s).
  { unfold categories_of. rewrite Hd. destruct (s_dtype s); [|reflexivity].
    rewrite (with_nan_added_observed _ _ Hadd). reflexivity. }
  rewrite Hc. split; [reflexivity|].
  intros Hp H2. rewrite (categories_of_plain _ Hp).
  apply observed_set_length_two in H2. rewrite H2. reflexivity.
Qed.

Lemma col_a_b_a_nan_added :
  with_nan_added (s_values col_a_b_a) (s_values col_a_b_a_nan).
Proof.
  simpl. apply nan_added_keep, nan_added_here, nan_added_keep, nan_added_keep,
    nan_added_here, nan_added_nil.
Qed.

Lemma has_two_levels_ignores_nan_witness :
  eval (_series_has_2_levels 1%positive) (state_of_series col_a_b_a_nan)
    = eval (_series_has_2_levels 1%positive) (state_of_series col_a_b_a) /\
  (s_dtype col_a_b_a = Plain -> exactly_two_labels (s_values col_a_b_a) ->
   eval (_series_has_2_levels 1%positive) (state_of_series col_a_b_a_nan) = Ok true).
Proof.
  apply (has_two_levels_ignores_nan
           (state_of_series col_a_b_a) (state_of_series col_a_b_a_nan)
           1%positive 1%positive col_a_b_a col_a_b_a_nan).
  - reflexivity.
  - reflexivity.
  - reflexivity.
  - exact col_a_b_a_nan_added.
Defined.

(* ===================================================================== *)
(** ** The significant-figures selector *)
(* ===================================================================== *)

(** The difference [1 - 0.03] of the source is the float [0.97]. *)
Lemma one_minus_0_03 : F64.sub lit_1 lit_0_03 = lit_0_97.
Proof. vm_compute. reflexivity. Qed.

Lemma eq_zero_is_zero (value : F64.float) : eq_zero value = F64.is_zero value.
Proof.
  unfold eq_zero, py_eq. destruct value as [s | s | | s m e]; try reflexivity.
  simpl. destruct (strip_bits m e) as [m' e']. destruct (0 <=? e') eqn:He.
  - apply bool_decide_eq_false. intros H. injection H as H.
    apply Z.leb_le in He.
    assert (0 < Z.pos m' * 2 ^ e') by (apply Z.mul_pos_pos; [lia | apply Z.pow_pos_nonneg; lia]).
    destruct s; simpl in H; lia.
  - reflexivity.
Qed.

Lemma abs_is_zero (value : F64.float) :
  F64.is_zero (F64.abs value) = F64.is_zero value.
Proof. destruct value; reflexivity. Qed.

(** Truncation and floor differ only on negative numbers, where both are
    at most zero: one more than either is below any positive default. *)
Lemma trunc_floor_max (l : F64.float) (d : Z) :
  0 < d ->
  match F64.trunc l with
  | Ok i => Ok (Z.max (i + 1) d)
  | Raise e => Raise e
  end =
  match F64.floor l with
  | Ok k => Ok (Z.max (k + 1) d)
  | Raise e => Raise e
  end.
Proof.
  intros Hd. destruct l as [s | s | | s m e]; try reflexivity.
  destruct s; [|reflexivity].
  unfold F64.trunc, F64.floor, cond_Zopp.
  change (Z.opp (Z.pos m)) with (Z.neg m).
  assert (H1 : 0 <= Z.shiftl (Z.pos m) e) by (apply Z.shiftl_nonneg; lia).
  assert (H2 : Z.shiftl (Z.neg m) e < 0) by (apply Z.shiftl_neg; lia).
  f_equal. lia.
Qed.

Section NumericFacts.

Variable np_log10 : F64.float -> F64.float.
Variable np_mean : list F64.float -> F64.float.
Variable np_quantile : list F64.float -> F64.float -> F64.float.

(** The value and the final state of a run of the selector. *)
Lemma format_sig_figs_run (value : F64.float) (default : option Z) (st : state) :
  _format_sig_figs np_log10 value default st =
  if eq_zero value then (Ok 1, st)
  else (match F64.trunc (np_log10 (F64.abs value)) with
        | Ok i => Ok (Z.max (i + 1) (default_or_2 default))
        | Raise e => Raise e
        end,
        mkState (heap st) (F64.abs value :: log10_args st)).
Proof.
  unfold _format_sig_figs. destruct (eq_zero value); [reflexivity|].
  rewrite bind_run. unfold log10. rewrite bind_run. unfold lift.
  destruct (F64.trunc _); reflexivity.
Qed.

(** C4. For every non-zero value and every positive integer default,
    [_format_sig_figs] returns [max(floor(log10(|value|)) + 1, default)],
    with 2 taken for a default that is unset (and it fails as the floor
    does where the logarithm is not finite).  In particular, where the
    logarithm kernel puts 0.1234 and 123.4 in their decades, the results
    for default 2 are 2 and 3. *)
Theorem format_sig_figs_formula (st : state) (value : F64.float) (default : option Z) :
  eq_zero value = false ->
  (forall d, default = Some d -> 0 < d) ->
  eval (_format_sig_figs np_log10 value default) st
    = significant_figures_formula np_log10 value default /\
  (value = lit_0_1234 -> default = Some 2 -> in_decade np_log10 lit_0_1234 ->
   eval (_format_sig_figs np_log10 value default) st = Ok 2) /\
  (value = lit_123_4 -> default = Some 2 -> in_decade np_log10 lit_123_4 ->
   eval (_format_sig_figs np_log10 value default) st = Ok 3).
Proof.
  intros Hz Hd.
  assert (Hpos : 0 < default_or_2 default).
  { destruct default as [d | ]; simpl; [apply Hd; reflexivity | lia]. }
  assert (Hf : eval (_format_sig_figs np_log10 value default) st
               = significant_figures_formula np_log10 value default).
  { unfold eval. rewrite format_sig_figs_run, Hz. simpl.
    unfold significant_figures_formula. apply trunc_floor_max. exact Hpos. }
  split; [exact Hf|]. rewrite Hf. unfold significant_figures_formula.
  split; intros -> -> Hdec.
  - unfold in_decade in Hdec.
    set (x := lit_0_1234) in *. vm_compute in x. subst x.
    cbv [F64.abs SFabs]. cbv beta iota in Hdec. rewrite Hdec. reflexivity.
  - unfold in_decade in Hdec.
    set (x := lit_123_4) in *. vm_compute in x. subst x.
    cbv [F64.abs SFabs]. cbv beta iota in Hdec. rewrite Hdec. reflexivity.
Qed.

End NumericFacts.

Lemma format_sig_figs_formula_witness :
  eq_zero lit_123_4 = false /\
  (forall d, Some 2 = Some d -> 0 < d) /\
  in_decade log10_decade lit_123_4 /\
  eval (_format_sig_figs log10_decade lit_123_4 (Some 2)) empty_state = Ok 3.
Proof.
  assert (H1 : eq_zero lit_123_4 = false) by reflexivity.
  assert (H2 : forall d, Some 2 = Some d -> 0 < d).
  { intros d H. injection H as <-. reflexivity. }
  assert (H3 : in_decade log10_decade lit_123_4) by (vm_compute; reflexivity).
  split; [exact H1|]. split; [exact H2|]. split; [exact H3|].
  exact (proj2 (proj2 (format_sig_figs_formula log10_decade empty_state
                         lit_123_4 (Some 2) H1 H2)) eq_refl eq_refl H3).
Defined.

Section ZeroGuard.

Variable np_log10 : F64.float -> F64.float.

(** C6. On a value equal to zero [_format_sig_figs] returns 1 whatever
    the default, without evaluating the logarithm; and in no call is the
    logarithm evaluated at zero: every argument a call adds to the record
    of evaluations is different from zero. *)
Theorem format_sig_figs_zero (st : state) (value : F64.float) (default : option Z) :
  (eq_zero value = true ->
   eval (_format_sig_figs np_log10 value default) st = Ok 1 /\
   log10_args (exec (_format_sig_figs np_log10 value default) st) = log10_args st) /\
  (forall x, x ∈ log10_args (exec (_format_sig_figs np_log10 value default) st) ->
             x ∈ log10_args st \/ eq_zero x = false).
Proof.
  unfold eval, exec. rewrite format_sig_figs_run. split.
  - intros ->. split; reflexivity.
  - intros x. destruct (eq_zero value) eqn:Hz; simpl; [auto|].
    intros Hx. apply elem_of_cons in Hx as [-> | Hx]; [right | left; exact Hx].
    rewrite eq_zero_is_zero, abs_is_zero, <- eq_zero_is_zero. exact Hz.
Qed.

End ZeroGuard.

Lemma format_sig_figs_zero_witness :
  eq_zero F64.zero = true /\
  eval (_format_sig_figs log10_decade F64.zero (Some 2)) empty_state = Ok 1 /\
  log10_args (exec (_format_sig_figs log10_decade F64.zero (Some 2)) empty_state) = [].
Proof.
  split; [reflexivity|].
  exact (proj1 (format_sig_figs_zero log10_decade empty_state F64.zero (Some 2)) eq_refl).
Defined.

(** The selector on the sample numbers, with the sample kernel. *)
Example format_sig_figs_0_1234 :
  eval (_format_sig_figs log10_decade lit_0_1234 (Some 2)) empty_state = Ok 2.
Proof. vm_compute. reflexivity. Qed.

Example format_sig_figs_unset_default :
  eval (_format_sig_figs log10_decade lit_123_4 None) empty_state = Ok 3.
Proof. vm_compute. reflexivity. Qed.

Example format_sig_figs_negative_zero :
  eval (_format_sig_figs log10_decade (S754_zero true) None) empty_state = Ok 1.
Proof. vm_compute. reflexivity. Qed.

(* ===================================================================== *)
(** ** The value formatter *)
(* ===================================================================== *)

Section Formatter.

Variable np_log10 : F64.float -> F64.float.
Variable np_mean : list F64.float -> F64.float.
Variable np_quantile : list F64.float -> F64.float -> F64.float.

Local Abbreviation convert := (convert_to_string np_log10 np_mean np_quantile).

(** C5. On a float, [convert_to_string] returns the rendering of the
    float with two decimal places, whatever [round_to] is: two calls that
    differ in [round_to] only return the same string; and 3.14159 is
    rendered as "3.14". *)
Theorem convert_float_two_decimals (st : state) (x : F64.float) (round_to : option Z) :
  eval (convert (Scalar (VFloat x)) round_to) st = Ok (Fmt.format_f 2 x) /\
  (forall r1 r2, eval (convert (Scalar (VFloat x)) r1) st
                 = eval (convert (Scalar (VFloat x)) r2) st) /\
  eval (convert (Scalar (VFloat lit_3_14159)) default_round_to) st = Ok "3.14"%string.
Proof.
  split; [reflexivity|]. split; [reflexivity|].
  change (Ok (Fmt.format_f 2 lit_3_14159) = Ok "3.14"%string).
  vm_compute. reflexivity.
Qed.

(** C9. A scalar that is not a float does not take the scalar branch:
    the call fails in the other branch, where the scalar has no attribute
    [quantile], and returns no string. *)
Theorem convert_non_float_scalar_fails (st : state) (v : scalar) (round_to : option Z) :
  (forall f, v <> VFloat f) ->
  eval (convert (Scalar v) round_to) st = Raise AttributeError.
Proof.
  intros Hv. destruct v as [ | b | z | f | s]; try reflexivity.
  exfalso. apply (Hv f). reflexivity.
Qed.

End Formatter.

Lemma convert_non_float_scalar_fails_witness :
  (forall f, VInt 3 <> VFloat f) /\
  eval (convert_to_string log10_decade mean_sample quantile_sample
          (Scalar (VInt 3)) default_round_to) empty_state = Raise AttributeError.
Proof.
  assert (H : forall f, VInt 3 <> VFloat f) by (intros f; discriminate).
  split; [exact H|].
  exact (convert_non_float_scalar_fails log10_decade mean_sample quantile_sample
           empty_state (VInt 3) default_round_to H).
Defined.

Section Distribution.

Variable np_log10 : F64.float -> F64.float.
Variable np_mean : list F64.float -> F64.float.
Variable np_quantile : list F64.float -> F64.float -> F64.float.

Lemma log_after_heap (n : F64.float) (st : state) :
  heap (log_after n st) = heap st.
Proof. unfold log_after. destruct (eq_zero n); reflexivity. Qed.

Lemma round_num_eval (n : F64.float) (round_to : option Z) (st : state) :
  eval (round_num np_log10 n round_to) st =
  match eval (_format_sig_figs np_log10 n round_to) st with
  | Ok sig_figs => Fmt.format_g sig_figs n
  | Raise e => Raise e
  end.
Proof.
  unfold eval, round_num. rewrite bind_run.
  destruct (_format_sig_figs np_log10 n round_to st) as [[sig | e] st'];
    reflexivity.
Qed.

Lemma round_num_eval_any_state (n : F64.float) (round_to : option Z) (st st' : state) :
  eval (round_num np_log10 n round_to) st = eval (round_num np_log10 n round_to) st'.
Proof.
  rewrite !round_num_eval. unfold eval. rewrite !format_sig_figs_run.
  destruct (eq_zero n); reflexivity.
Qed.

Lemma round_num_run (n : F64.float) (round_to : option Z) (st : state) :
  round_num np_log10 n round_to st =
  (eval (round_num np_log10 n round_to) st, log_after n st).
Proof.
  unfold eval, round_num, log_after. rewrite bind_run, format_sig_figs_run.
  destruct (eq_zero n); [reflexivity|].
  destruct (F64.trunc _); reflexivity.
Qed.

Lemma quantiles_of_levels (samples : list F64.float) :
  quantiles np_quantile samples [VFloat lit_0_03; VFloat (F64.sub lit_1 lit_0_03)]
  = Ok [np_quantile samples lit_0_03; np_quantile samples lit_0_97].
Proof.
  rewrite one_minus_0_03. unfold quantiles, quantile_level.
  replace (SFleb F64.zero lit_0_03 && SFleb lit_0_03 lit_1) with true
    by (vm_compute; reflexivity).
  replace (SFleb F64.zero lit_0_97 && SFleb lit_0_97 lit_1) with true
    by (vm_compute; reflexivity).
  reflexivity.
Qed.

Lemma da_quantile_run (st : state) (x qs : loc) (samples : list F64.float)
    (o : object) (levels : list scalar) (fs : list F64.float) :
  heap st !! x = Some (ODataArray samples) ->
  heap st !! qs = Some o -> elements_of o = Some levels ->
  quantiles np_quantile samples levels = Ok fs ->
  da_quantile np_quantile x qs st = (Ok (new_loc st), store_new (ODataArray fs) st).
Proof.
  intros Hx Hq He Hf. unfold da_quantile.
  rewrite bind_run, (deref_run _ _ _ Hx).
  rewrite bind_run, (iter_run _ _ _ _ Hq He).
  rewrite bind_run. unfold lift. rewrite Hf. reflexivity.
Qed.

Lemma da_values_run (st : state) (x : loc) (samples : list F64.float) :
  heap st !! x = Some (ODataArray samples) ->
  da_values x st = (Ok samples, st).
Proof.
  intros Hx. unfold da_values. rewrite bind_run, (deref_run _ _ _ Hx). reflexivity.
Qed.

Lemma da_mean_run (st : state) (x : loc) (samples : list F64.float) :
  heap st !! x = Some (ODataArray samples) ->
  da_mean np_mean x st = (Ok (new_loc st), store_new (ODataArray [np_mean samples]) st).
Proof.
  intros Hx. unfold da_mean. rewrite bind_run, (deref_run _ _ _ Hx). reflexivity.
Qed.

Lemma getitem_run (st : state) (a : list F64.float) (i : nat) (x : F64.float) :
  a !! i = Some x -> getitem a i st = (Ok x, st).
Proof. intros H. unfold getitem. rewrite H. reflexivity. Qed.

(** C3. On a distributional input, [convert_to_string] is the
    concatenation of the mean of the samples rendered with two decimal
    places, the label of the 94% interval, and ["[lower, upper]"], where
    lower and upper are the quantiles of the samples at 0.03 and at 0.97,
    each rendered by [round_num], that is, in the general format with the
    number of significant figures the selector gives for it with
    [round_to] as its default; the call fails where one of the two
    renderings fails. *)
Theorem convert_distribution (st : state) (l : loc) (samples : list F64.float)
    (round_to : option Z) :
  heap st !! l = Some (ODataArray samples) ->
  eval (convert_to_string np_log10 np_mean np_quantile (DataArrayRef l) round_to) st =
  match eval (round_num np_log10 (np_quantile samples lit_0_03) round_to) st with
  | Raise e => Raise e
  | Ok lower =>
      match eval (round_num np_log10 (np_quantile samples lit_0_97) round_to) st with
      | Raise e => Raise e
      | Ok upper =>
          Ok (Fmt.format_f 2 (np_mean samples)
                +:+ "$CI_{94\%}$" +:+ "[" +:+ lower +:+ ", " +:+ upper +:+ "]")
      end
  end /\
  (forall n, eval (round_num np_log10 n round_to) st =
             match eval (_format_sig_figs np_log10 n round_to) st with
             | Ok sig_figs => Fmt.format_g sig_figs n
             | Raise e => Raise e
             end).
Proof.
  intros Hl. split; [|intros n; apply round_num_eval].
  set (q0 := np_quantile samples lit_0_03).
  set (q1 := np_quantile samples lit_0_97).
  unfold eval at 1. unfold convert_to_string.
  rewrite bind_run. unfold new_list, alloc.
  set (st1 := store_new _ st).
  assert (Hl1 : heap st1 !! l = Some (ODataArray samples))
    by (apply store_new_old; exact Hl).
  rewrite bind_run,
    (da_quantile_run st1 l (new_loc st) samples _ _ _ Hl1 (store_new_eq _ _)
       eq_refl (quantiles_of_levels samples)).
  fold q0 q1. set (st2 := store_new _ st1).
  rewrite bind_run, (da_values_run st2 _ _ (store_new_eq _ _)).
  rewrite bind_run, (getitem_run st2 [q0; q1] 0 q0 eq_refl).
  rewrite bind_run, round_num_run.
  rewrite (round_num_eval_any_state q0 round_to st st2).
  destruct (eval (round_num np_log10 q0 round_to) st2) as [lower | e]; [|reflexivity].
  rewrite bind_run, (getitem_run _ [q0; q1] 1 q1 eq_refl).
  rewrite bind_run, round_num_run.
  rewrite (round_num_eval_any_state q1 round_to st (log_after q0 st2)).
  destruct (eval (round_num np_log10 q1 round_to) (log_after q0 st2)) as [upper | e];
    [|reflexivity].
  set (st4 := log_after q1 (log_after q0 st2)).
  assert (Hl4 : heap st4 !! l = Some (ODataArray samples)).
  { unfold st4. rewrite !log_after_heap. apply store_new_old. exact Hl1. }
  rewrite bind_run, (da_mean_run st4 l samples Hl4).
  rewrite bind_run, (da_values_run _ _ _ (store_new_eq _ _)).
  reflexivity.
Qed.

End Distribution.

Lemma convert_distribution_witness :
  heap (state_of_samples samples_1_05_15) !! 1%positive
    = Some (ODataArray samples_1_05_15) /\
  eval (convert_to_string log10_decade mean_sample quantile_sample
          (DataArrayRef 1%positive) default_round_to) (state_of_samples samples_1_05_15)
    = Ok "1.00$CI_{94\%}$[0.5, 1.5]"%string.
Proof.
  split; [reflexivity|].
  refine (eq_trans
            (proj1 (convert_distribution log10_decade mean_sample quantile_sample
                      (state_of_samples samples_1_05_15) 1%positive samples_1_05_15
                      default_round_to eq_refl)) _).
  vm_compute. reflexivity.
Defined.

(* ===================================================================== *)
(** ** The store is left as it was *)
(* ===================================================================== *)

Lemma keeps_ret {A : Type} (a : A) : keeps_store (mret a : M A).
Proof. intros st. reflexivity. Qed.

Lemma keeps_raise {A : Type} (e : exn) : keeps_store (raise e : M A).
Proof. intros st. reflexivity. Qed.

Lemma keeps_lift {A : Type} (r : result A) : keeps_store (lift r).
Proof. intros st. reflexivity. Qed.

Lemma keeps_bind {A B : Type} (m : M A) (k : A -> M B) :
  keeps_store m -> (forall a, keeps_store (k a)) -> keeps_store (m ≫= k).
Proof.
  intros Hm Hk st. unfold exec. rewrite bind_run.
  specialize (Hm st). unfold exec in Hm.
  destruct (m st) as [[a | e] st']; simpl in *; [|exact Hm].
  etransitivity; [exact Hm | apply Hk].
Qed.

Lemma keeps_alloc (o : object) : keeps_store (alloc o).
Proof.
  intros st. unfold exec, alloc, store_new; simpl.
  apply insert_subseteq, new_loc_fresh.
Qed.

Lemma keeps_deref (l : loc) : keeps_store (deref l).
Proof. intros st. unfold exec, deref. destruct (heap st !! l); reflexivity. Qed.

Lemma keeps_log10 (np_log10 : F64.float -> F64.float) (x : F64.float) :
  keeps_store (log10 np_log10 x).
Proof. intros st. reflexivity. Qed.

Create HintDb keeps.
#[global] Hint Resolve keeps_ret keeps_raise keeps_lift keeps_alloc keeps_deref
  keeps_log10 : keeps.

(** Goals on computations built from binds, matches and the primitives. *)
Ltac keeps_tac :=
  repeat first
    [ solve [auto with keeps]
    | apply keeps_bind; [|intros ?]
    | match goal with
      | |- keeps_store (match ?x with _ => _ end) => destruct x
      | |- keeps_store (if ?b then _ else _) => destruct b
      end ].

Lemma keeps_iter (l : loc) : keeps_store (iter l).
Proof. unfold iter. keeps_tac. Qed.
#[global] Hint Resolve keeps_iter : keeps.

Lemma keeps_py_len (l : loc) : keeps_store (py_len l).
Proof. unfold py_len. keeps_tac. Qed.

Lemma keeps_py_set (l : loc) : keeps_store (py_set l).
Proof. unfold py_set. keeps_tac. Qed.

Lemma keeps_set_difference (s t : loc) : keeps_store (set_difference s t).
Proof. unfold set_difference. keeps_tac. Qed.

Lemma keeps_pd_Categorical (l : loc) : keeps_store (pd_Categorical l).
Proof. unfold pd_Categorical. keeps_tac. Qed.

Lemma keeps_get_categories (l : loc) : keeps_store (get_categories l).
Proof. unfold get_categories. keeps_tac. Qed.

#[global] Hint Resolve keeps_py_len keeps_py_set keeps_set_difference
  keeps_pd_Categorical keeps_get_categories : keeps.

Lemma keeps_is_variable_dummy_coded (series : loc) :
  keeps_store (_is_variable_dummy_coded series).
Proof. unfold _is_variable_dummy_coded, new_list. keeps_tac. Qed.

Lemma keeps_series_has_2_levels (series : loc) :
  keeps_store (_series_has_2_levels series).
Proof. unfold _series_has_2_levels. keeps_tac. Qed.

Section StoreKept.

Variable np_log10 : F64.float -> F64.float.
Variable np_mean : list F64.float -> F64.float.
Variable np_quantile : list F64.float -> F64.float -> F64.float.

Lemma keeps_format_sig_figs (value : F64.float) (default : option Z) :
  keeps_store (_format_sig_figs np_log10 value default).
Proof. unfold _format_sig_figs. keeps_tac. Qed.

Lemma keeps_round_num (n : F64.float) (round_to : option Z) :
  keeps_store (round_num np_log10 n round_to).
Proof.
  unfold round_num. apply keeps_bind; [apply keeps_format_sig_figs|].
  intros ?. keeps_tac.
Qed.

Lemma keeps_da_quantile (x qs : loc) : keeps_store (da_quantile np_quantile x qs).
Proof. unfold da_quantile. keeps_tac. Qed.

Lemma keeps_da_mean (x : loc) : keeps_store (da_mean np_mean x).
Proof. unfold da_mean. keeps_tac. Qed.

Lemma keeps_da_values (x : loc) : keeps_store (da_values x).
Proof. unfold da_values. keeps_tac. Qed.

Lemma keeps_getitem (a : list F64.float) (i : nat) : keeps_store (getitem a i).
Proof. unfold getitem. keeps_tac. Qed.

Lemma keeps_format_array_2f (a : list F64.float) : keeps_store (format_array_2f a).
Proof. unfold format_array_2f. keeps_tac. Qed.

Hint Resolve keeps_round_num keeps_da_quantile keeps_da_mean keeps_da_values
  keeps_getitem keeps_format_array_2f : keeps.

Lemma keeps_convert_to_string (x : arg) (round_to : option Z) :
  keeps_store (convert_to_string np_log10 np_mean np_quantile x round_to).
Proof. unfold convert_to_string, new_list. keeps_tac. Qed.

(** C7. None of the four functions changes its inputs or anything else
    in the store: whatever the arguments, every object the heap holds
    before a call (the column, the distributional object, any other
    object) is at the same location and unchanged after the call; scalars
    are values and cannot change. *)
Theorem inputs_unchanged (st : state) (l : loc) (o : object)
    (series : loc) (value : F64.float) (default round_to : option Z) (x : arg) :
  heap st !! l = Some o ->
  heap (exec (_is_variable_dummy_coded series) st) !! l = Some o /\
  heap (exec (_series_has_2_levels series) st) !! l = Some o /\
  heap (exec (_format_sig_figs np_log10 value default) st) !! l = Some o /\
  heap (exec (convert_to_string np_log10 np_mean np_quantile x round_to) st) !! l
    = Some o.
Proof.
  intros Hl.
  pose proof (keeps_is_variable_dummy_coded series st) as H1.
  pose proof (keeps_series_has_2_levels series st) as H2.
  pose proof (keeps_format_sig_figs value default st) as H3.
  pose proof (keeps_convert_to_string x round_to st) as H4.
  rewrite map_subseteq_spec in H1, H2, H3, H4.
  repeat split; auto.
Qed.

End StoreKept.

Lemma inputs_unchanged_witness :
  heap (state_of_series col_0_1_2) !! 1%positive = Some (OSeries col_0_1_2) /\
  heap (exec (_is_variable_dummy_coded 1%positive) (state_of_series col_0_1_2))
    !! 1%positive = Some (OSeries col_0_1_2) /\
  heap (exec (_series_has_2_levels 1%positive) (state_of_series col_0_1_2))
    !! 1%positive = Some (OSeries col_0_1_2).
Proof.
  split; [reflexivity|].
  pose proof (inputs_unchanged log10_decade mean_sample quantile_sample
                (state_of_series col_0_1_2) 1%positive (OSeries col_0_1_2)
                1%positive lit_123_4 None None (Scalar VNone) eq_refl) as H.
  split; [exact (proj1 H) | exact (proj1 (proj2 H))].
Defined.

(* ===================================================================== *)
(** ** Further properties of the column predicates *)
(* ===================================================================== *)

(** The check as a boolean on the values of the column. *)
Lemma dummy_coded_bool_iff (xs : list scalar) :
  (Z.of_nat (length (set_diff (set_of_list xs) [VInt 0; VInt 1])) =? 0) = true <->
  forall v, v ∈ xs -> in_0_1 v = true.
Proof.
  rewrite Z.eqb_eq, <- set_diff_0_1_empty. lia.
Qed.

Lemma two_levels_bool_iff (xs : list scalar) :
  (Z.of_nat (length (set_of_list (observed xs))) =? 2) = true <->
  exactly_two_labels xs.
Proof.
  rewrite Z.eqb_eq, <- observed_set_length_two. lia.
Qed.

Lemma in_0_1_or (v : scalar) :
  in_0_1 v = true <-> py_eq v (VInt 0) = true \/ py_eq v (VInt 1) = true.
Proof.
  unfold in_0_1, py_in; simpl. rewrite !orb_true_iff.
  split; [intros [H | [H | H]] | intros [H | H]]; auto. discriminate.
Qed.

(** A value equal to an integer is not missing. *)
Lemma py_eq_int_notna (v : scalar) (z : Z) : py_eq v (VInt z) = true -> isna v = false.
Proof.
  intros H. apply py_eq_key in H as [Hk Hn].
  destruct v as [ | b | n | f | s]; simpl in *; try reflexivity; try discriminate.
  destruct f; simpl in *; try reflexivity. congruence.
Qed.

Lemma in_0_1_notna (v : scalar) : in_0_1 v = true -> isna v = false.
Proof.
  intros H. apply in_0_1_or in H as [H | H]; exact (py_eq_int_notna _ _ H).
Qed.

(** X1. The dummy-coding check of a concatenation: a column made of two
    columns one after the other is dummy coded exactly when both are. *)
Theorem is_dummy_coded_concat
    (st1 st2 st : state) (l1 l2 l : loc) (s1 s2 s : Series) :
  heap st1 !! l1 = Some (OSeries s1) ->
  heap st2 !! l2 = Some (OSeries s2) ->
  heap st !! l = Some (OSeries s) ->
  s_values s = s_values s1 ++ s_values s2 ->
  ∃ b1 b2,
    eval (_is_variable_dummy_coded l1) st1 = Ok b1 /\
    eval (_is_variable_dummy_coded l2) st2 = Ok b2 /\
    eval (_is_variable_dummy_coded l) st = Ok (b1 && b2).
Proof.
  intros H1 H2 H Happ.
  rewrite (is_variable_dummy_coded_run _ _ _ H1), (is_variable_dummy_coded_run _ _ _ H2),
    (is_variable_dummy_coded_run _ _ _ H).
  eexists _, _. split; [reflexivity|]. split; [reflexivity|].
  f_equal. apply eq_true_iff_eq.
  rewrite andb_true_iff, !dummy_coded_bool_iff, Happ.
  split.
  - intros Hall. split; intros v Hv; apply Hall, elem_of_app; auto.
  - intros [Ha Hb] v Hv. apply elem_of_app in Hv as [Hv | Hv]; auto.
Qed.

Lemma is_dummy_coded_concat_witness :
  ∃ b1 b2,
    eval (_is_variable_dummy_coded 1%positive)
      (state_of_three col_1_0 col_0_1_2 (mkSeries [VInt 1; VInt 0; VInt 0; VInt 1; VInt 2] Plain))
      = Ok b1 /\
    eval (_is_variable_dummy_coded 2%positive)
      (state_of_three col_1_0 col_0_1_2 (mkSeries [VInt 1; VInt 0; VInt 0; VInt 1; VInt 2] Plain))
      = Ok b2 /\
    eval (_is_variable_dummy_coded 3%positive)
      (state_of_three col_1_0 col_0_1_2 (mkSeries [VInt 1; VInt 0; VInt 0; VInt 1; VInt 2] Plain))
      = Ok (b1 && b2).
Proof.
  apply (is_dummy_coded_concat _ _ _ 1%positive 2%positive 3%positive
           col_1_0 col_0_1_2 (mkSeries [VInt 1; VInt 0; VInt 0; VInt 1; VInt 2] Plain));
    reflexivity.
Defined.

(** X2. The dummy-coding check depends on the values that occur only, not
    on their order or on how often they occur: two columns with the same
    values give the same result. *)
Theorem is_dummy_coded_same_values
    (st st' : state) (l l' : loc) (s s' : Series) :
  heap st !! l = Some (OSeries s) ->
  heap st' !! l' = Some (OSeries s') ->
  (forall v, v ∈ s_values s <-> v ∈ s_values s') ->
  eval (_is_variable_dummy_coded l') st' = eval (_is_variable_dummy_coded l) st.
Proof.
  intros H H' Hsame.
  rewrite (is_variable_dummy_coded_run _ _ _ H), (is_variable_dummy_coded_run _ _ _ H').
  f_equal. apply eq_true_iff_eq. rewrite !dummy_coded_bool_iff.
  split; intros Hall v Hv; apply Hall, Hsame, Hv.
Qed.

Lemma col_1_0_same_values (v : scalar) :
  v ∈ s_values col_1_0 <-> v ∈ s_values col_1_0_1_0.
Proof.
  simpl. rewrite !elem_of_cons, !elem_of_nil. tauto.
Qed.

Lemma is_dummy_coded_same_values_witness :
  eval (_is_variable_dummy_coded 1%positive) (state_of_series col_1_0_1_0)
  = eval (_is_variable_dummy_coded 1%positive) (state_of_series col_1_0).
Proof.
  apply (is_dummy_coded_same_values (state_of_series col_1_0) (state_of_series col_1_0_1_0)
           1%positive 1%positive col_1_0 col_1_0_1_0);
    [reflexivity | reflexivity | exact col_1_0_same_values].
Defined.

(** X3. A column that holds a missing value (NaN or [None]) or a string
    is not dummy coded, whatever else it holds. *)
Theorem is_dummy_coded_rejects_missing
    (st : state) (l : loc) (s : Series) (v : scalar) :
  heap st !! l = Some (OSeries s) ->
  v ∈ s_values s ->
  isna v = true \/ (∃ str, v = VStr str) ->
  eval (_is_variable_dummy_coded l) st = Ok false.
Proof.
  intros H Hv Hbad. rewrite (is_variable_dummy_coded_run _ _ _ H). f_equal.
  apply not_true_is_false. intros Hb.
  pose proof (proj1 (dummy_coded_bool_iff (s_values s)) Hb v Hv) as Hin.
  destruct Hbad as [Hna | [str ->]].
  - apply in_0_1_notna in Hin. congruence.
  - discriminate Hin.
Qed.

Lemma is_dummy_coded_rejects_missing_witness :
  eval (_is_variable_dummy_coded 1%positive) (state_of_series col_0_nan) = Ok false.
Proof.
  apply (is_dummy_coded_rejects_missing (state_of_series col_0_nan) 1%positive
           col_0_nan (VFloat F64.nan)).
  - reflexivity.
  - simpl. right. left.
  - left. reflexivity.
Defined.

Lemma observed_all_missing (xs : list scalar) :
  (forall v, v ∈ xs -> isna v = true) -> observed xs = [].
Proof.
  intros Hall. induction xs as [ | x xs IH]; [reflexivity|].
  unfold observed in *. simpl. rewrite (Hall x) by left. simpl.
  apply IH. intros v Hv. apply Hall. right. exact Hv.
Qed.

(** X4. On a column that is not of categorical dtype and holds no value
    besides missing ones (the empty column among them), the two-level
    check returns false. *)
Theorem has_two_levels_all_missing (st : state) (l : loc) (s : Series) :
  heap st !! l = Some (OSeries s) ->
  s_dtype s = Plain ->
  (forall v, v ∈ s_values s -> isna v = true) ->
  eval (_series_has_2_levels l) st = Ok false.
Proof.
  intros H Hp Hall. rewrite (series_has_2_levels_run _ _ _ H).
  rewrite (categories_of_plain _ Hp), (observed_all_missing _ Hall). reflexivity.
Qed.

Lemma has_two_levels_all_missing_witness :
  eval (_series_has_2_levels 1%positive) (state_of_series col_nan_none) = Ok false /\
  eval (_series_has_2_levels 1%positive) (state_of_series col_empty) = Ok false.
Proof.
  split.
  - apply (has_two_levels_all_missing (state_of_series col_nan_none) 1%positive col_nan_none);
      [reflexivity | reflexivity |].
    intros v Hv. simpl in Hv.
    apply elem_of_cons in Hv as [-> | Hv]; [reflexivity|].
    apply elem_of_cons in Hv as [-> | Hv]; [reflexivity|]. inversion Hv.
  - apply (has_two_levels_all_missing (state_of_series col_empty) 1%positive col_empty);
      [reflexivity | reflexivity |].
    intros v Hv. inversion Hv.
Defined.

Lemma isna_of_key (v : scalar) :
  isna v = match key_of v with KNone | KNaN => true | _ => false end.
Proof.
  destruct v as [ | b | z | f | s]; try reflexivity.
  destruct f as [ | | | sg m e]; try reflexivity.
  simpl. destruct (strip_bits m e) as [m' e']. destruct (0 <=? e'); reflexivity.
Qed.

(** Equal scalars are both missing or both not. *)
Lemma py_eq_isna (u w : scalar) : py_eq u w = true -> isna u = isna w.
Proof.
  intros E. apply py_eq_key in E as [Ek _]. rewrite !isna_of_key, Ek. reflexivity.
Qed.

Lemma exactly_two_labels_among (xs ys : list scalar) :
  labels_among xs ys -> labels_among ys xs ->
  exactly_two_labels xs -> exactly_two_labels ys.
Proof.
  intros Hxy Hyx (a & b & Ha & Hb & Hna & Hnb & Hab & Hall).
  destruct (Hxy a Ha Hna) as [a' [Ha' Eaa]].
  destruct (Hxy b Hb Hnb) as [b' [Hb' Ebb]].
  assert (Sa : py_eq a' a = true) by (rewrite py_eq_sym; exact Eaa).
  assert (Sb : py_eq b' b = true) by (rewrite py_eq_sym; exact Ebb).
  assert (Kn : forall u w, py_eq u w = true -> isna u = false -> isna w = false).
  { intros u w E Hu. rewrite <- (py_eq_isna _ _ E). exact Hu. }
  exists a', b'. split; [exact Ha'|]. split; [exact Hb'|].
  split; [exact (Kn _ _ Eaa Hna)|]. split; [exact (Kn _ _ Ebb Hnb)|]. split.
  - destruct (py_eq a' b') eqn:E; [|reflexivity].
    assert (py_eq a b = true).
    { apply (py_eq_trans a a' b); [exact Eaa|].
      apply (py_eq_trans a' b' b); [exact E | exact Sb]. }
    congruence.
  - intros v Hv Hnv. destruct (Hyx v Hv Hnv) as [u [Hu Evu]].
    assert (Hnu : isna u = false) by exact (Kn _ _ Evu Hnv).
    destruct (Hall u Hu Hnu) as [E | E]; [left | right].
    + apply (py_eq_trans v u a'); [exact Evu|].
      apply (py_eq_trans u a a'); assumption.
    + apply (py_eq_trans v u b'); [exact Evu|].
      apply (py_eq_trans u b b'); assumption.
Qed.

(** X5. On columns that are not of categorical dtype, the two-level check
    depends on the labels that occur only, up to equality: two columns
    each of whose labels equals a label of the other give the same result,
    whatever the order, the repetitions, the missing values and the types
    ([True], [1] and [1.0] are one label). *)
Theorem has_two_levels_same_labels
    (st st' : state) (l l' : loc) (s s' : Series) :
  heap st !! l = Some (OSeries s) ->
  heap st' !! l' = Some (OSeries s') ->
  s_dtype s = Plain -> s_dtype s' = Plain ->
  labels_among (s_values s) (s_values s') ->
  labels_among (s_values s') (s_values s) ->
  eval (_series_has_2_levels l') st' = eval (_series_has_2_levels l) st.
Proof.
  intros H H' Hp Hp' Hxy Hyx.
  rewrite (series_has_2_levels_run _ _ _ H), (series_has_2_levels_run _ _ _ H').
  rewrite (categories_of_plain _ Hp), (categories_of_plain _ Hp').
  f_equal. apply eq_true_iff_eq. rewrite !two_levels_bool_iff.
  split; apply exactly_two_labels_among; assumption.
Qed.

Lemma col_1_0_among_true_0_1 :
  labels_among (s_values col_1_0) (s_values col_true_0_1) /\
  labels_among (s_values col_true_0_1) (s_values col_1_0).
Proof.
  split; intros v Hv _; simpl in Hv.
  - apply elem_of_cons in Hv as [-> | Hv];
      [exists (VBool true); split; [left | reflexivity]|].
    apply elem_of_cons in Hv as [-> | Hv];
      [exists (VInt 0); split; [right; left | reflexivity]|].
    inversion Hv.
  - apply elem_of_cons in Hv as [-> | Hv];
      [exists (VInt 1); split; [left | reflexivity]|].
    apply elem_of_cons in Hv as [-> | Hv];
      [exists (VInt 0); split; [right; left | reflexivity]|].
    apply elem_of_cons in Hv as [-> | Hv];
      [exists (VInt 1); split; [left | vm_compute; reflexivity]|].
    apply elem_of_cons in Hv as [-> | Hv];
      [exists (VInt 1); split; [left | reflexivity]|].
    inversion Hv.
Qed.

Lemma has_two_levels_same_labels_witness :
  eval (_series_has_2_levels 1%positive) (state_of_series col_true_0_1)
  = eval (_series_has_2_levels 1%positive) (state_of_series col_1_0).
Proof.
  apply (has_two_levels_same_labels (state_of_series col_1_0)
           (state_of_series col_true_0_1) 1%positive 1%positive col_1_0 col_true_0_1);
    [reflexivity | reflexivity | reflexivity | reflexivity
    | exact (proj1 col_1_0_among_true_0_1) | exact (proj2 col_1_0_among_true_0_1)].
Defined.

(** X6. The two predicates together: on a column that is not of
    categorical dtype and is dummy coded, the two-level check is true
    exactly when both a value equal to 0 and a value equal to 1 occur. *)
Theorem dummy_coded_two_levels (st st' : state) (l : loc) (s : Series) :
  heap st !! l = Some (OSeries s) ->
  heap st' !! l = Some (OSeries s) ->
  s_dtype s = Plain ->
  eval (_is_variable_dummy_coded l) st = Ok true ->
  (eval (_series_has_2_levels l) st' = Ok true <->
   (∃ a, a ∈ s_values s /\ py_eq a (VInt 0) = true) /\
   (∃ b, b ∈ s_values s /\ py_eq b (VInt 1) = true)).
Proof.
  intros H H' Hp Hd.
  rewrite (is_variable_dummy_coded_run _ _ _ H) in Hd. injection Hd as Hd.
  pose proof (proj1 (dummy_coded_bool_iff _) Hd) as Hall.
  rewrite (series_has_2_levels_run _ _ _ H'), (categories_of_plain _ Hp).
  assert (Hb : Ok (Z.of_nat (length (set_of_list (observed (s_values s)))) =? 2) = Ok true
               <-> exactly_two_labels (s_values s)).
  { rewrite <- two_levels_bool_iff. split; [intros E; injection E; auto | intros ->; reflexivity]. }
  rewrite Hb. clear Hb.
  assert (H01 : forall u w, py_eq u (VInt 0) = true -> py_eq w (VInt 1) = true ->
                            py_eq u w = false).
  { intros u w E0 E1. destruct (py_eq u w) eqn:E; [|reflexivity].
    apply py_eq_key in E0 as [K0 _]. apply py_eq_key in E1 as [K1 _].
    apply py_eq_key in E as [K _]. simpl in K0, K1. congruence. }
  assert (Hsame : forall u w z, py_eq u (VInt z) = true -> py_eq w (VInt z) = true ->
                                py_eq u w = true).
  { intros u w z Eu Ew. apply (py_eq_trans u (VInt z) w); [exact Eu|].
    rewrite py_eq_sym. exact Ew. }
  split.
  - intros (a & b & Ha & Hb & _ & _ & Hab & _).
    pose proof (proj1 (in_0_1_or a) (Hall a Ha)) as Ea.
    pose proof (proj1 (in_0_1_or b) (Hall b Hb)) as Eb.
    destruct Ea as [Ea | Ea], Eb as [Eb | Eb].
    + rewrite (Hsame a b 0 Ea Eb) in Hab. discriminate.
    + split; [exists a | exists b]; auto.
    + split; [exists b | exists a]; auto.
    + rewrite (Hsame a b 1 Ea Eb) in Hab. discriminate.
  - intros [[a [Ha Ea]] [b [Hb Eb]]].
    exists a, b. split; [exact Ha|]. split; [exact Hb|].
    split; [exact (py_eq_int_notna _ _ Ea)|]. split; [exact (py_eq_int_notna _ _ Eb)|].
    split; [exact (H01 a b Ea Eb)|].
    intros v Hv _. destruct (proj1 (in_0_1_or v) (Hall v Hv)) as [E | E].
    + left. exact (Hsame v a 0 E Ea).
    + right. exact (Hsame v b 1 E Eb).
Qed.

Lemma dummy_coded_two_levels_witness :
  eval (_is_variable_dummy_coded 1%positive) (state_of_series col_0_1_1_0) = Ok true /\
  (eval (_series_has_2_levels 1%positive) (state_of_series col_0_1_1_0) = Ok true <->
   (∃ a, a ∈ s_values col_0_1_1_0 /\ py_eq a (VInt 0) = true) /\
   (∃ b, b ∈ s_values col_0_1_1_0 /\ py_eq b (VInt 1) = true)).
Proof.
  split; [vm_compute; reflexivity|].
  apply (dummy_coded_two_levels (state_of_series col_0_1_1_0) (state_of_series col_0_1_1_0)
           1%positive col_0_1_1_0); [reflexivity | reflexivity | reflexivity |].
  vm_compute. reflexivity.
Defined.

(* ===================================================================== *)
(** ** Further properties of the selector and of the formatter *)
(* ===================================================================== *)


(** The general format of a negative number is the minus sign followed by
    the format of its magnitude. *)
Lemma format_g_negative (p : Z) (m : positive) (e : Z) :
  Fmt.format_g p (S754_finite true m e) =
  match Fmt.format_g p (S754_finite false m e) with
  | Ok s => Ok ("-" +:+ s)
  | Raise ex => Raise ex
  end.
Proof.
  unfold Fmt.format_g. destruct (p <? 0); [reflexivity|].
  destruct (Fmt.sig_digits m e (Z.max p 1)) as [D x]. reflexivity.
Qed.

Lemma eq_zero_opp (v : F64.float) : eq_zero (F64.opp v) = eq_zero v.
Proof. rewrite !eq_zero_is_zero. destruct v; reflexivity. Qed.

Lemma abs_opp (v : F64.float) : F64.abs (F64.opp v) = F64.abs v.
Proof. destruct v; reflexivity. Qed.

Lemma abs_not_negative (v : F64.float) : float_is_negative (F64.abs v) = false.
Proof. destruct v; reflexivity. Qed.

Section SelectorFacts.

Variable np_log10 : F64.float -> F64.float.
Variable np_mean : list F64.float -> F64.float.
Variable np_quantile : list F64.float -> F64.float -> F64.float.

(** With a positive default, the selector computes the formula with the
    floor. *)
Lemma format_sig_figs_floor (st : state) (value : F64.float) (default : option Z) :
  eq_zero value = false -> 0 < default_or_2 default ->
  eval (_format_sig_figs np_log10 value default) st
  = significant_figures_formula np_log10 value default.
Proof.
  intros Hz Hd. unfold eval. rewrite format_sig_figs_run, Hz. simpl.
  unfold significant_figures_formula. apply trunc_floor_max. exact Hd.
Qed.

(** The value of the selector, apart from the state. *)
Lemma format_sig_figs_eval (st : state) (value : F64.float) (default : option Z) :
  eval (_format_sig_figs np_log10 value default) st =
  if eq_zero value then Ok 1
  else match F64.trunc (np_log10 (F64.abs value)) with
       | Ok i => Ok (Z.max (i + 1) (default_or_2 default))
       | Raise e => Raise e
       end.
Proof.
  unfold eval. rewrite format_sig_figs_run. destruct (eq_zero value); reflexivity.
Qed.



(** X9. A NaN and an infinity make the selector fail, and [round_num]
    with it, for a logarithm that sends NaN to NaN and infinity to
    infinity: [int()] raises [ValueError] on NaN and [OverflowError] on an
    infinity. *)
Theorem format_sig_figs_non_finite (st : state) (default : option Z) :
  np_log10 S754_nan = S754_nan ->
  np_log10 (S754_infinity false) = S754_infinity false ->
  eval (_format_sig_figs np_log10 S754_nan default) st = Raise ValueError /\
  eval (round_num np_log10 S754_nan default) st = Raise ValueError /\
  (forall s, eval (_format_sig_figs np_log10 (S754_infinity s) default) st
             = Raise OverflowError) /\
  (forall s, eval (round_num np_log10 (S754_infinity s) default) st
             = Raise OverflowError).
Proof.
  intros Hnan Hinf.
  assert (H1 : eval (_format_sig_figs np_log10 S754_nan default) st = Raise ValueError).
  { rewrite format_sig_figs_eval. simpl. rewrite Hnan. reflexivity. }
  assert (H2 : forall s, eval (_format_sig_figs np_log10 (S754_infinity s) default) st
                         = Raise OverflowError).
  { intros s. rewrite format_sig_figs_eval. simpl. rewrite Hinf. reflexivity. }
  split; [exact H1|]. split; [rewrite round_num_eval, H1; reflexivity|].
  split; [exact H2|]. intros s. rewrite round_num_eval, H2. reflexivity.
Qed.

(** X11. The selector does not depend on the sign of the value: a value
    and its opposite give the same result and evaluate the logarithm at
    the same argument. *)
Theorem format_sig_figs_sign (st : state) (value : F64.float) (default : option Z) :
  _format_sig_figs np_log10 (F64.opp value) default st
  = _format_sig_figs np_log10 value default st.
Proof.
  rewrite !format_sig_figs_run, eq_zero_opp, abs_opp. reflexivity.
Qed.

(** X12. [round_num] renders a negative number as the minus sign followed
    by the rendering of its magnitude, and fails when the latter does. *)
Theorem round_num_negative (st : state) (m : positive) (e : Z) (round_to : option Z) :
  eval (round_num np_log10 (S754_finite true m e) round_to) st =
  match eval (round_num np_log10 (S754_finite false m e) round_to) st with
  | Ok s => Ok ("-" +:+ s)
  | Raise ex => Raise ex
  end.
Proof.
  rewrite !round_num_eval, !format_sig_figs_eval.
  change (eq_zero (S754_finite true m e)) with (eq_zero (F64.opp (S754_finite false m e))).
  change (F64.abs (S754_finite true m e)) with (F64.abs (F64.opp (S754_finite false m e))).
  rewrite eq_zero_opp, abs_opp.
  destruct (eq_zero (S754_finite false m e)).
  - apply format_g_negative.
  - destruct (F64.trunc _) as [i | ex]; [|reflexivity].
    apply format_g_negative.
Qed.

(** X13. What the selector returns: 1 on a zero value, whatever the
    default; at least the default on any other value; and a positive
    number whenever the default is positive. *)
Theorem format_sig_figs_bounds
    (st : state) (value : F64.float) (default : option Z) (k : Z) :
  eval (_format_sig_figs np_log10 value default) st = Ok k ->
  (eq_zero value = true -> k = 1) /\
  (eq_zero value = false -> default_or_2 default <= k) /\
  (0 < default_or_2 default -> 1 <= k).
Proof.
  rewrite format_sig_figs_eval. destruct (eq_zero value).
  - intros H. injection H as <-. repeat split; intros; try discriminate; lia.
  - destruct (F64.trunc _) as [i | ex]; [|discriminate].
    intros H. injection H as <-. repeat split; intros; try discriminate; lia.
Qed.

(** X14. The selector never evaluates the logarithm at a negative number:
    every argument a call adds to the record of evaluations is the
    magnitude of the value. *)
Theorem log10_never_negative
    (st : state) (value : F64.float) (default : option Z) (x : F64.float) :
  x ∈ log10_args (exec (_format_sig_figs np_log10 value default) st) ->
  x ∈ log10_args st \/ (x = F64.abs value /\ float_is_negative x = false).
Proof.
  unfold exec. rewrite format_sig_figs_run.
  destruct (eq_zero value); simpl; [auto|].
  intros Hx. apply elem_of_cons in Hx as [-> | Hx]; [right | left; exact Hx].
  split; [reflexivity | apply abs_not_negative].
Qed.

(** X15. A zero renders as "0", and a negative zero as "-0", whatever
    [round_to] is, a negative one included. *)
Theorem round_num_zero (st : state) (s : bool) (round_to : option Z) :
  eval (round_num np_log10 (S754_zero s) round_to) st
  = Ok (if s then "-0" else "0")%string.
Proof.
  rewrite round_num_eval, format_sig_figs_eval.
  destruct s; reflexivity.
Qed.

(** X16. The examples of the docstring of [_format_sig_figs]: with
    [round_to = 2], 0.1234 is rendered as "0.12", 1.234 as "1.2", 12.34 as
    "12" and 123.4 as "123", for a logarithm that puts each of the four
    numbers in its decade. *)
Theorem round_num_docstring (st : state) :
  in_decade np_log10 lit_0_1234 -> in_decade np_log10 lit_1_234 ->
  in_decade np_log10 lit_12_34 -> in_decade np_log10 lit_123_4 ->
  eval (round_num np_log10 lit_0_1234 (Some 2)) st = Ok "0.12"%string /\
  eval (round_num np_log10 lit_1_234 (Some 2)) st = Ok "1.2"%string /\
  eval (round_num np_log10 lit_12_34 (Some 2)) st = Ok "12"%string /\
  eval (round_num np_log10 lit_123_4 (Some 2)) st = Ok "123"%string.
Proof.
  intros H1 H2 H3 H4.
  assert (Hd : 0 < default_or_2 (Some 2)) by reflexivity.
  repeat match goal with |- _ /\ _ => split end.
  - rewrite round_num_eval, (format_sig_figs_floor st lit_0_1234 (Some 2) eq_refl Hd).
    unfold significant_figures_formula, in_decade in *.
    set (x := lit_0_1234) in *. vm_compute in x. subst x.
    cbv [F64.abs SFabs]. cbv beta iota in H1. rewrite H1. vm_compute. reflexivity.
  - rewrite round_num_eval, (format_sig_figs_floor st lit_1_234 (Some 2) eq_refl Hd).
    unfold significant_figures_formula, in_decade in *.
    set (x := lit_1_234) in *. vm_compute in x. subst x.
    cbv [F64.abs SFabs]. cbv beta iota in H2. rewrite H2. vm_compute. reflexivity.
  - rewrite round_num_eval, (format_sig_figs_floor st lit_12_34 (Some 2) eq_refl Hd).
    unfold significant_figures_formula, in_decade in *.
    set (x := lit_12_34) in *. vm_compute in x. subst x.
    cbv [F64.abs SFabs]. cbv beta iota in H3. rewrite H3. vm_compute. reflexivity.
  - rewrite round_num_eval, (format_sig_figs_floor st lit_123_4 (Some 2) eq_refl Hd).
    unfold significant_figures_formula, in_decade in *.
    set (x := lit_123_4) in *. vm_compute in x. subst x.
    cbv [F64.abs SFabs]. cbv beta iota in H4. rewrite H4. vm_compute. reflexivity.
Qed.

End SelectorFacts.

Section FormatterFacts.

Variable np_log10 : F64.float -> F64.float.
Variable np_mean : list F64.float -> F64.float.
Variable np_quantile : list F64.float -> F64.float -> F64.float.



End FormatterFacts.



Lemma format_sig_figs_non_finite_witness :
  eval (_format_sig_figs log10_decade S754_nan None) empty_state = Raise ValueError /\
  eval (round_num log10_decade S754_nan None) empty_state = Raise ValueError /\
  (forall s, eval (_format_sig_figs log10_decade (S754_infinity s) None) empty_state
             = Raise OverflowError) /\
  (forall s, eval (round_num log10_decade (S754_infinity s) None) empty_state
             = Raise OverflowError).
Proof.
  apply (format_sig_figs_non_finite log10_decade empty_state None); reflexivity.
Defined.


Lemma format_sig_figs_bounds_witness :
  (eq_zero lit_123_4 = true -> 3 = 1) /\
  (eq_zero lit_123_4 = false -> default_or_2 (Some 2) <= 3) /\
  (0 < default_or_2 (Some 2) -> 1 <= 3).
Proof.
  apply (format_sig_figs_bounds log10_decade empty_state lit_123_4 (Some 2) 3).
  vm_compute. reflexivity.
Defined.

Lemma log10_never_negative_witness :
  F64.abs (F64.opp lit_123_4)
    ∈ log10_args (exec (_format_sig_figs log10_decade (F64.opp lit_123_4) None) empty_state) /\
  (F64.abs (F64.opp lit_123_4) ∈ log10_args empty_state \/
   (F64.abs (F64.opp lit_123_4) = F64.abs (F64.opp lit_123_4) /\
    float_is_negative (F64.abs (F64.opp lit_123_4)) = false)).
Proof.
  assert (H : F64.abs (F64.opp lit_123_4)
                ∈ log10_args (exec (_format_sig_figs log10_decade (F64.opp lit_123_4) None)
                                empty_state)).
  { unfold exec. rewrite format_sig_figs_run. simpl. left. }
  split; [exact H|].
  exact (log10_never_negative log10_decade empty_state (F64.opp lit_123_4) None _ H).
Defined.

Lemma round_num_docstring_witness :
  eval (round_num log10_decade lit_0_1234 (Some 2)) empty_state = Ok "0.12"%string /\
  eval (round_num log10_decade lit_1_234 (Some 2)) empty_state = Ok "1.2"%string /\
  eval (round_num log10_decade lit_12_34 (Some 2)) empty_state = Ok "12"%string /\
  eval (round_num log10_decade lit_123_4 (Some 2)) empty_state = Ok "123"%string.
Proof.
  apply (round_num_docstring log10_decade empty_state); vm_compute; reflexivity.
Defined.
